(** * rez build process: a shallow embedding of [rez/build_process_.py]

    The module builds and possibly releases a package: a factory
    ([create_build_process]), the abstract [BuildProcess] with its
    constructor, and [BuildProcessHelper] with the variant traversal
    ([visit_variants]), the install path, the build context and the
    console helpers.

    Python values are modelled as follows: [int] is [Z], [str] is [string],
    a list is a [list], a [set] of ints is a [gset Z], [None]-or-value is an
    [option].  Effects (printing, saving a context, calling a collaborator
    or the callback) are threaded through a state-and-exception monad whose
    state carries an ordered trace of the actions performed. *)

From Stdlib Require Import Ascii String ZArith Lia.
From stdpp Require Import base option list gmap strings pretty sorting.

Local Open Scope string_scope.
Local Open Scope Z_scope.
Local Open Scope list_scope.

(** ** Python primitives used by the module *)

Module Py.

(** [s.startswith('/')]. *)
Definition startswith_slash (s : string) : bool :=
  match s with
  | String c _ => bool_decide (c = "/"%char)
  | EmptyString => false
  end.

(** [s.endswith('/')]. *)
Fixpoint endswith_slash (s : string) : bool :=
  match s with
  | EmptyString => false
  | String c EmptyString => bool_decide (c = "/"%char)
  | String _ s' => endswith_slash s'
  end.

(** [os.path.join(a, b)] of [posixpath]: an absolute [b] replaces [a]; an
    empty [a], or one that ends with a slash, is followed by [b] directly;
    otherwise a slash separates them. *)
Definition os_path_join (a b : string) : string :=
  if startswith_slash b then b
  else if bool_decide (a = "") || endswith_slash a then a +:+ b
  else a +:+ "/" +:+ b.

(** [sep.join(l)]. *)
Fixpoint join (sep : string) (l : list string) : string :=
  match l with
  | [] => ""
  | [x] => x
  | x :: l' => x +:+ sep +:+ join sep l'
  end.

(** [c * n] for a one-character string [c]. *)
Fixpoint repeat_char (c : ascii) (n : nat) : string :=
  match n with
  | O => ""
  | S n' => String c (repeat_char c n')
  end.

(** [str(x)] and [%d] for an int: the decimal numeral, with a leading
    minus sign for a negative number. *)
Definition str_int (x : Z) : string := pretty x.

(** [repr(s)] of a [str] without quotes, backslashes or non-printable
    characters: the text between single quotes. *)
Definition repr_str (s : string) : string := "'" +:+ s +:+ "'".

(** [needle in hay] for two [str]: [needle] occurs in [hay] as a
    contiguous substring. *)
Fixpoint str_contains (needle hay : string) : bool :=
  String.prefix needle hay ||
  match hay with
  | EmptyString => false
  | String _ hay' => str_contains needle hay'
  end.

(** [fmt % args] for the conversions this module uses: [%s] consumes the
    next argument, [%%] is a percent sign.  [None] stands for the
    [TypeError]/[ValueError] Python raises when the arguments and the
    conversions do not match or the conversion is another one. *)
Fixpoint percent_format (fmt : string) (args : list string) : option string :=
  match fmt with
  | EmptyString =>
      match args with
      | [] => Some ""
      | _ :: _ => None
      end
  | String c rest =>
      if bool_decide (c = "%"%char) then
        match rest with
        | String d rest' =>
            if bool_decide (d = "s"%char) then
              match args with
              | a :: args' => (λ r, a +:+ r) <$> percent_format rest' args'
              | [] => None
              end
            else if bool_decide (d = "%"%char) then
              String "%" <$> percent_format rest' args
            else None
        | EmptyString => None
        end
      else String c <$> percent_format rest args
  end.

(** [range(n)]: the ints from 0 up to, not including, [n]. *)
Definition range (n : Z) : list Z := seqZ 0 n.

(** [sorted(s)] for a set of ints. *)
Definition sorted (s : gset Z) : list Z := merge_sort Z.le (elements s).

(** [x in l] where [x] may be [None] and [l] is a list of ints: [None]
    equals no int. *)
Definition opt_in (x : option Z) (l : list Z) : bool :=
  match x with
  | Some i => bool_decide (i ∈ l)
  | None => false
  end.

End Py.

(** ** Data model *)

(** [BuildType]: the enum of the source. *)
Module BuildType.
Inductive t := local | central.
End BuildType.

(** Modelled from the spec: the status of a resolved context is one of
    solved, failed and the like ([rez.resolver.ResolverStatus] is imported,
    not defined, by the module).  The code only compares it with [solved]. *)
Module ResolverStatus.
Inductive t := pending | solved | failed | aborted.

#[global] Instance eq_dec : EqDecision t.
Proof. solve_decision. Defined.
End ResolverStatus.

(** A requirement is represented by its string form, so [str(r)] is [r]. *)
Definition Requirement := string.

(** A variant of a package: its index, [None] for the only variant of a
    package that declares none, and its requirements. *)
Record Variant := {
  index : option Z;
  get_requires : bool → bool → list Requirement
    (* build_requires, private_build_requires *)
}.

(** The per-package configuration the module reads. *)
Record Config := {
  packages_path : list string;
  nonlocal_packages_path : list string;
  release_hooks : option (list string);
  build_directory : string
}.

(** The developer package.  [version] is [None] for an unversioned package
    (the falsy value of the source) and otherwise carries [str(version)].
    [iter_variants] is the sequence the generator of that name yields. *)
Record Package := {
  name : string;
  version : option string;
  config : Config;
  num_variants : Z;
  iter_variants : list Variant
}.

(** Modelled from the spec: variant indices are 0-based and stable, and a
    package that declares no variant has one variant whose index is absent
    ([rez.packages_] is imported, not defined, by the module). *)
Definition declared_variants (p : Package) : Prop :=
  index <$> iter_variants p =
    if bool_decide (num_variants p ≤ 0) then [None]
    else Some <$> Py.range (num_variants p).

(** A resolved context, as [ResolvedContext(request, package_paths=...,
    building=...)] constructs it: it keeps what it was resolved from, and
    the resolver decides its status. *)
Record Context := {
  package_requests : list Requirement;
  package_paths : list string;
  building : bool;
  status : ResolverStatus.t
}.

(** The version control backend: the module reads its root path only. *)
Record ReleaseVCS := { path : string }.

(** Exceptions.  [BuildError] is the class [visit_variants] names;
    [NameError] is what Python raises for a name that is not bound;
    [Foreign] is an exception of a collaborator or of the callback. *)
Inductive Exn :=
  | BuildError (msg : string)
  | BuildProcessError (msg : string)
  | BuildContextResolveError (context : Context)
  | NameError (name : string)
  | TypeError
  | Foreign (what : string).

Inductive Outcome (A : Type) :=
  | Ret (a : A)
  | Raise (e : Exn).
Arguments Ret {A} a.
Arguments Raise {A} e.

(** The names the module binds at its top level: its imports
    ([import os.path] binds [os]) and its definitions. *)
Definition module_globals : list string :=
  [ "get_developer_package"; "BuildProcessError"; "BuildContextResolveError";
    "ResolvedContext"; "create_release_hooks"; "ResolverStatus"; "config";
    "Enum"; "os"; "get_build_process_types"; "create_build_process";
    "BuildType"; "BuildProcess"; "BuildProcessHelper" ].

(** The actions the module performs on the outside world, in order.  An
    action that calls a collaborator is recorded when the call is made;
    whether the call returns or raises is the collaborator's outcome. *)
Inductive Event :=
  | EvPrint (line : string)                       (* print txt *)
  | EvResolve (request : list Requirement) (paths : list string) (b : bool)
                                                  (* ResolvedContext(...) *)
  | EvPrintInfo (context : Context)               (* context.print_info() *)
  | EvSave (file : string) (context : Context)    (* context.save(file) *)
  | EvLoadPackage (dir : string)                  (* get_developer_package *)
  | EvCreateHooks (names : list string) (dir : string)
  | EvGetPluginClass (kind plugin : string)       (* get_plugin_class *)
  | EvCall (variant : Variant).                   (* func(variant, **kwargs) *)

(** ** The state-and-exception monad *)

Section Process.

(** [St] is the state the callback works on, [Res] its result and [Kw] its
    keyword arguments; the other types belong to collaborators. *)
Context {St Res Kw BuildSystem Hook DebugPrinter : Type}.

Record World := { user : St; trace : list Event }.

Definition M (A : Type) : Type := World → Outcome A * World.

Definition ret {A} (a : A) : M A := λ w, (Ret a, w).

Definition bind {A B} (m : M A) (k : A → M B) : M B :=
  λ w, match m w with
       | (Ret a, w') => k a w'
       | (Raise e, w') => (Raise e, w')
       end.

(** The world after some more actions. *)
Definition extend (w : World) (evs : list Event) : World :=
  {| user := user w; trace := trace w ++ evs |}.

Definition emit (e : Event) : M unit := λ w, (Ret tt, extend w [e]).

(** [raise cls(...)]: the class name is looked up first, and a name the
    module does not bind raises [NameError] before the exception object is
    built. *)
Definition raise_global {A} (cls : string) (e : Exn) : M A :=
  λ w, if bool_decide (cls ∈ module_globals) then (Raise e, w)
       else (Raise (NameError cls), w).

Notation "'let!' x ':=' m 'in' k" := (bind m (λ x, k))
  (at level 10, x name, m at level 100, k at level 200, only parsing).
Notation "'do!' m 'in' k" := (bind m (λ _, k))
  (at level 10, m at level 100, k at level 200, only parsing).

(** ** Collaborators the module imports *)

(** The dependency resolver behind [ResolvedContext(...)]: the status of
    the context the constructor builds, or the exception it raises. *)
Variable solve : list Requirement → list string → Outcome ResolverStatus.t.
(** What [context.print_info()] and [context.save(file)] come to: the call
    returns, or raises an exception of its own. *)
Variable report : Context → Outcome unit.
Variable write : Context → string → Outcome unit.
(** [get_developer_package(working_dir)]: the package, or its error. *)
Variable get_developer_package : string → Outcome Package.
(** [create_release_hooks(names, working_dir)]. *)
Variable create_release_hooks : list string → string → list Hook.
(** [config.debug_printer(name)]. *)
Variable debug_printer : string → DebugPrinter.

(** [ResolvedContext(request, package_paths=paths, building=b)]: the call
    is recorded, then the resolver decides. *)
Definition ResolvedContext (request : list Requirement)
    (paths : list string) (b : bool) : M Context :=
  do! emit (EvResolve request paths b) in
  let! st := (λ w, (solve request paths, w)) in
  ret {| package_requests := request; package_paths := paths;
         building := b; status := st |}.

Definition print_info (c : Context) : M unit :=
  do! emit (EvPrintInfo c) in
  λ w, (report c, w).

Definition save (c : Context) (file : string) : M unit :=
  do! emit (EvSave file c) in
  λ w, (write c file, w).

(** ** [BuildProcess] *)

Record BuildProcess := {
  verbose : bool;
  working_dir : string;
  build_system : BuildSystem;
  vcs : option ReleaseVCS;
  ensure_latest : bool;
  debug_print : DebugPrinter;
  package : Package;
  hooks : list Hook;
  build_path : string
}.

(** [BuildProcess.__init__]. *)
Definition __init__ (working_dir : string) (build_system : BuildSystem)
    (vcs : option ReleaseVCS) (ensure_latest verbose : bool) : M BuildProcess :=
  if match vcs with
     | Some v => bool_decide (path v ≠ working_dir)
     | None => false
     end
  then raise_global "BuildProcessError" (BuildProcessError
         "Build process was instantiated with a mismatched VCS instance")
  else
    let debug_print := debug_printer "package_release" in
    do! emit (EvLoadPackage working_dir) in
    let! package := (λ w, (get_developer_package working_dir, w)) in
    let hook_names :=
      match release_hooks (config package) with
      | Some (n :: ns) => n :: ns
      | _ => []
      end in
    do! emit (EvCreateHooks hook_names working_dir) in
    let hooks := create_release_hooks hook_names working_dir in
    let build_path :=
      Py.os_path_join working_dir (build_directory (config package)) in
    ret {| verbose := verbose; working_dir := working_dir;
           build_system := build_system; vcs := vcs;
           ensure_latest := ensure_latest; debug_print := debug_print;
           package := package; hooks := hooks; build_path := build_path |}.

(** ** The factory *)

(** A registered implementation: the constructor of a [BuildProcess]
    subclass. *)
Definition Cls : Type :=
  string → BuildSystem → option ReleaseVCS → bool → bool → M BuildProcess.

(** [plugin_manager.get_plugins(kind)] and
    [plugin_manager.get_plugin_class(kind, name)], the latter with the
    plugin manager's own error for a name it does not know. *)
Variable get_plugins : string → list string.
Variable get_plugin_class : string → string → Outcome Cls.

Definition get_build_process_types : list string :=
  get_plugins "build_process".

Definition create_build_process (process_type working_dir : string)
    (build_system : BuildSystem) (vcs : option ReleaseVCS)
    (ensure_latest verbose : bool) : M BuildProcess :=
  let process_types := get_build_process_types in
  if negb (Py.str_contains process_type process_type) then
    raise_global "BuildProcessError" (BuildProcessError
      ("Unknown build process: " +:+ Py.repr_str process_type))
  else
    do! emit (EvGetPluginClass "build_process" process_type) in
    let! cls := (λ w, (get_plugin_class "build_process" process_type, w)) in
    cls working_dir build_system vcs ensure_latest verbose.

(** ** [BuildProcessHelper] *)

(** The callback of [visit_variants]: it works on its own state and either
    returns a result or raises. *)
Variable func : Variant → Kw → St → Outcome Res * St.

(** [func(variant, **kwargs)], recorded in the trace. *)
Definition call (variant : Variant) (kwargs : Kw) : M Res :=
  λ w, let '(o, s) := func variant kwargs (user w) in
       (o, {| user := s; trace := trace w ++ [EvCall variant] |}).

Definition _print (self : BuildProcess) (txt : string)
    (nargs : list string) : M unit :=
  if verbose self then
    let! txt :=
      (match nargs with
       | _ :: _ =>
           match Py.percent_format txt nargs with
           | Some t => ret t
           | None => λ w, (Raise TypeError, w)
           end
       | [] => ret txt
       end) in
    emit (EvPrint txt)
  else ret tt.

Definition _print_header (self : BuildProcess) (txt : string) (n : Z)
    : M unit :=
  do! _print self "" [] in
  if bool_decide (n ≤ 1) then
    do! _print self (Py.repeat_char "-" 80) [] in
    do! _print self txt [] in
    _print self (Py.repeat_char "-" 80) []
  else
    do! _print self txt [] in
    _print self (Py.repeat_char "-" (String.length txt)) [].

Definition _n_of_m (self : BuildProcess) (variant : Variant) : string :=
  let num_variants := Z.max (num_variants (package self)) 1 in
  let index :=
    match index variant with
    | Some i => if bool_decide (i = 0) then 0 else i
    | None => 0
    end + 1 in
  Py.str_int index +:+ "/" +:+ Py.str_int num_variants.

(** The truth value of the [variants] argument: [None] and the empty list
    are false. *)
Definition requested (variants : option (list Z)) : list Z :=
  default [] variants.

Definition truthy (variants : option (list Z)) : bool :=
  match requested variants with
  | [] => false
  | _ :: _ => true
  end.

(** [present_variants = range(self.package.num_variants)]. *)
Definition present_variants (self : BuildProcess) : list Z :=
  Py.range (num_variants (package self)).

(** The set difference [set(variants) - set(present_variants)]. *)
Definition invalid_variants (self : BuildProcess)
    (variants : option (list Z)) : gset Z :=
  list_to_set (requested variants) ∖ list_to_set (present_variants self).

(** The [for] loop of [visit_variants], over the variants still to come. *)
Fixpoint visit_loop (self : BuildProcess) (variants : option (list Z))
    (kwargs : Kw) (todo : list Variant) (results : list Res)
    (num_visited : Z) : M (Z * list Res) :=
  match todo with
  | [] => ret (num_visited, results)
  | variant :: todo' =>
      if truthy variants && negb (Py.opt_in (index variant) (requested variants))
      then
        do! _print_header self
              ("Skipping " +:+ _n_of_m self variant +:+ "...") 1 in
        visit_loop self variants kwargs todo' results num_visited
      else
        let! result := call variant kwargs in
        visit_loop self variants kwargs todo' (results ++ [result])
                   (num_visited + 1)
  end.

Definition visit_variants (self : BuildProcess)
    (variants : option (list Z)) (kwargs : Kw) : M (Z * list Res) :=
  do! (if truthy variants then
         let invalid_variants := invalid_variants self variants in
         if negb (bool_decide (invalid_variants = ∅)) then
           raise_global "BuildError" (BuildError
             ("The package does not contain the variants: " +:+
              Py.join ", " (Py.str_int <$> Py.sorted invalid_variants)))
         else ret tt
       else ret tt) in
  visit_loop self variants kwargs (iter_variants (package self)) [] 0.

Definition get_package_install_path (self : BuildProcess) (path : string)
    : string :=
  let path_ := Py.os_path_join path (name (package self)) in
  match version (package self) with
  | Some v => Py.os_path_join path_ v
  | None => path_
  end.

Definition create_build_context (self : BuildProcess) (variant : Variant)
    (build_type : BuildType.t) (build_path : string)
    : M (Context * string) :=
  let request := get_requires variant true true in
  let requests_str := Py.join " " request in
  do! _print self "Resolving build environment: %s" [requests_str] in
  let packages_path :=
    match build_type with
    | BuildType.local => packages_path (config (package self))
    | _ => nonlocal_packages_path (config (package self))
    end in
  let! context := ResolvedContext request packages_path true in
  do! (if verbose self then print_info context else ret tt) in
  let rxt_filepath := Py.os_path_join build_path "build.rxt" in
  do! save context rxt_filepath in
  if bool_decide (status context ≠ ResolverStatus.solved) then
    raise_global "BuildContextResolveError" (BuildContextResolveError context)
  else ret (context, rxt_filepath).

End Process.

(** ** Reading a trace *)

(** The variants the callback was invoked on, in order. *)
Fixpoint calls_of (evs : list Event) : list Variant :=
  match evs with
  | [] => []
  | EvCall v :: evs' => v :: calls_of evs'
  | _ :: evs' => calls_of evs'
  end.

(** The lines printed, in order. *)
Fixpoint printed_of (evs : list Event) : list string :=
  match evs with
  | [] => []
  | EvPrint l :: evs' => l :: printed_of evs'
  | _ :: evs' => printed_of evs'
  end.

(** The resolves requested, in order. *)
Fixpoint resolves_of (evs : list Event)
    : list (list Requirement * list string * bool) :=
  match evs with
  | [] => []
  | EvResolve r p b :: evs' => (r, p, b) :: resolves_of evs'
  | _ :: evs' => resolves_of evs'
  end.

(** The snapshots written, in order. *)
Fixpoint saves_of (evs : list Event) : list (string * Context) :=
  match evs with
  | [] => []
  | EvSave f c :: evs' => (f, c) :: saves_of evs'
  | _ :: evs' => saves_of evs'
  end.

(** ** What the traversal is expected to do *)

Section Expected.

Context {St Res Kw BuildSystem Hook DebugPrinter : Type}.
Variable func : Variant → Kw → St → Outcome Res * St.

Let BP : Type := @BuildProcess BuildSystem Hook DebugPrinter.

(** The callback run on each variant of a list in turn, up to the first
    one on which it raises. *)
Fixpoint call_all (kwargs : Kw) (vs : list Variant) (s : St)
    : Outcome (list Res) * St :=
  match vs with
  | [] => (Ret [], s)
  | v :: vs' =>
      match func v kwargs s with
      | (Ret r, s') =>
          match call_all kwargs vs' s' with
          | (Ret rs, s'') => (Ret (r :: rs), s'')
          | (Raise e, s'') => (Raise e, s'')
          end
      | (Raise e, s') => (Raise e, s')
      end
  end.

(** A variant the request names: its index is one of the requested ones. *)
Definition chosen (vs : list Z) (variant : Variant) : Prop :=
  Py.opt_in (index variant) vs.

#[global] Instance chosen_dec (vs : list Z) (variant : Variant) :
  Decision (chosen vs variant).
Proof. unfold chosen. apply _. Defined.

(** The block [_print_header] prints for a top-level header, when the
    process is verbose. *)
Definition header_block (self : BP) (txt : string) : list string :=
  if verbose self
  then [""; Py.repeat_char "-" 80; txt; Py.repeat_char "-" 80]
  else [].

(** The report of a variant that is passed over. *)
Definition skip_report (self : BP) (variant : Variant) : list string :=
  header_block self ("Skipping " +:+ _n_of_m self variant +:+ "...").

(** The actions of one turn of the loop under a non-empty request. *)
Definition turn (self : BP) (vs : list Z) (variant : Variant)
    : list Event :=
  if Py.opt_in (index variant) vs then [EvCall variant]
  else EvPrint <$> skip_report self variant.

(** A variant the loop passes over: the request is not empty and does not
    name its index. *)
Definition skips (variants : option (list Z)) (variant : Variant) : bool :=
  truthy variants && negb (Py.opt_in (index variant) (requested variants)).

(** The actions of one turn of the loop. *)
Definition loop_events (self : BP) (variants : option (list Z))
    (variant : Variant) : list Event :=
  if skips variants variant then EvPrint <$> skip_report self variant
  else [EvCall variant].

(** The package search paths a build type stands for. *)
Definition search_paths (self : BP) (build_type : BuildType.t)
    : list string :=
  match build_type with
  | BuildType.local => packages_path (config (package self))
  | BuildType.central => nonlocal_packages_path (config (package self))
  end.

(** The context [ResolvedContext] builds for [create_build_context] when
    the resolver comes to the status [st]. *)
Definition build_context (self : BP) (variant : Variant)
    (build_type : BuildType.t) (st : ResolverStatus.t) : Context :=
  {| package_requests := get_requires variant true true;
     package_paths := search_paths self build_type;
     building := true;
     status := st |}.

(** The first actions of [create_build_context]: the progress line, when
    the process is verbose, and the call of the resolver. *)
Definition build_context_request (self : BP) (variant : Variant)
    (build_type : BuildType.t) : list Event :=
  (if verbose self
   then [EvPrint ("Resolving build environment: " +:+
                  Py.join " " (get_requires variant true true))]
   else [])
  ++ [EvResolve (get_requires variant true true)
                (search_paths self build_type) true].

(** The actions of [create_build_context] before it saves the context, in
    order: the progress line, the resolve, and the context's own report;
    the first and the last only when the process is verbose. *)
Definition build_context_prelude (self : BP) (variant : Variant)
    (build_type : BuildType.t) (st : ResolverStatus.t) : list Event :=
  build_context_request self variant build_type
  ++ (if verbose self
      then [EvPrintInfo (build_context self variant build_type st)]
      else []).

(** All the actions of a run of [create_build_context] that reaches the
    save: the snapshot comes last. *)
Definition build_context_events (self : BP) (variant : Variant)
    (build_type : BuildType.t) (build_path : string)
    (st : ResolverStatus.t) : list Event :=
  build_context_prelude self variant build_type st
  ++ [EvSave (Py.os_path_join build_path "build.rxt")
             (build_context self variant build_type st)].

(** The message [visit_variants] builds for the invalid indices. *)
Definition invalid_message (self : BP) (variants : option (list Z))
    : string :=
  "The package does not contain the variants: " +:+
  Py.join ", " (Py.str_int <$> Py.sorted (invalid_variants self variants)).

End Expected.

(** ** Sample data *)

Module Sample.

Definition variant (i : option Z) : Variant :=
  {| index := i;
     get_requires := λ b p,
       (["python-2.7"] ++ (if b then ["cmake"] else [])
                       ++ (if p then ["gcc-4.8"] else []))%list |}.

Definition cfg : Config :=
  {| packages_path := ["/home/packages"; "/packages"];
     nonlocal_packages_path := ["/packages"];
     release_hooks := None;
     build_directory := "build" |}.

(** A package [P-1.2.3] with three variants. *)
Definition pkg : Package :=
  {| name := "P"; version := Some "1.2.3"; config := cfg;
     num_variants := 3;
     iter_variants := [variant (Some 0); variant (Some 1); variant (Some 2)] |}.

(** A package that declares no variant and has no version. *)
Definition bare : Package :=
  {| name := "Q"; version := None; config := cfg;
     num_variants := 0; iter_variants := [variant None] |}.

Definition process (p : Package) (v : bool) : @BuildProcess unit unit unit :=
  {| verbose := v; working_dir := "/w"; build_system := tt; vcs := None;
     ensure_latest := true; debug_print := tt; package := p; hooks := [];
     build_path := "/w/build" |}.

(** A callback that counts its calls and returns the index it is given. *)
Definition func (v : Variant) (kw : unit) (s : nat)
    : Outcome (option Z) * nat :=
  (Ret (index v), S s).

Definition world : @World nat := {| user := O; trace := [] |}.

(** A resolver that finds no package when it is given no search path,
    and cannot solve a request from the remote paths only. *)
Definition solve (request : list Requirement) (paths : list string)
    : Outcome ResolverStatus.t :=
  if bool_decide (paths = []) then Raise (Foreign "PackageFamilyNotFoundError")
  else if bool_decide (paths = ["/packages"]) then Ret ResolverStatus.failed
  else Ret ResolverStatus.solved.

(** A context whose report always succeeds. *)
Definition report (c : Context) : Outcome unit := Ret tt.

(** A file system on which the directory [/absent] does not exist. *)
Definition write (c : Context) (file : string) : Outcome unit :=
  if bool_decide (file = "/absent/build.rxt") then Raise (Foreign "IOError")
  else Ret tt.

Definition get_developer_package (dir : string) : Outcome Package :=
  Ret pkg.

(** A plugin manager with the one build process type [local]. *)
Definition get_plugins (kind : string) : list string := ["local"].

Definition get_plugin_class (kind plugin : string)
    : Outcome (@Cls nat unit unit unit) :=
  if bool_decide (plugin = "local") then
    Ret (__init__ get_developer_package (λ _ _, []) (λ _, tt))
  else Raise (Foreign "RezPluginError").

(** A callback that fails on the variant of index 1. *)
Definition picky (v : Variant) (kw : unit) (s : nat)
    : Outcome (option Z) * nat :=
  if bool_decide (index v = Some 1)
  then (Raise (Foreign "CalledProcessError"), S s)
  else (Ret (index v), S s).

End Sample.


(** * Properties *)

(** ** Python primitives *)

Lemma str_contains_refl (s : string) : Py.str_contains s s = true.
Proof.
  assert (H : String.prefix s s = true).
  { induction s as [|c s IH]; simpl; [done|].
    destruct (Ascii.ascii_dec c c); [exact IH|done]. }
  destruct s; simpl in *; [done|]. by rewrite H.
Qed.

Lemma string_app_empty_r (s : string) : s +:+ "" = s.
Proof.
  induction s as [|c s IH]; [done|].
  change (String c (s +:+ "") = String c s). by rewrite IH.
Qed.

Lemma percent_format_s_suffix (pre s : string) :
  Forall (λ c, c ≠ "%"%char) (list_ascii_of_string pre) →
  Py.percent_format (pre +:+ "%s") [s] = Some (pre +:+ s).
Proof.
  induction pre as [|c pre IH]; intros Hpre.
  - change (Some (s +:+ "") = Some s). by rewrite string_app_empty_r.
  - apply Forall_cons in Hpre as [Hc Hpre].
    change (Py.percent_format (String c (pre +:+ "%s")) [s]
            = Some (String c (pre +:+ s))).
    unfold Py.percent_format; fold Py.percent_format.
    rewrite bool_decide_eq_false_2 by done. by rewrite IH.
Qed.

Lemma percent_format_resolving (s : string) :
  Py.percent_format "Resolving build environment: %s" [s]
  = Some ("Resolving build environment: " +:+ s).
Proof.
  apply (percent_format_s_suffix "Resolving build environment: ").
  apply (bool_decide_unpack _). by vm_compute.
Qed.

Lemma os_path_join_plain (a b : string) :
  Py.startswith_slash b = false → a ≠ "" → Py.endswith_slash a = false →
  Py.os_path_join a b = a +:+ "/" +:+ b.
Proof.
  intros Hb Ha He. unfold Py.os_path_join. rewrite Hb, He.
  by rewrite bool_decide_eq_false_2.
Qed.

Lemma elem_of_sorted (s : gset Z) (x : Z) : x ∈ Py.sorted s ↔ x ∈ s.
Proof.
  unfold Py.sorted. rewrite merge_sort_Permutation. apply elem_of_elements.
Qed.

Lemma sorted_NoDup (s : gset Z) : NoDup (Py.sorted s).
Proof.
  unfold Py.sorted. rewrite merge_sort_Permutation. apply NoDup_elements.
Qed.

Lemma sorted_ascending (s : gset Z) : StronglySorted Z.le (Py.sorted s).
Proof. unfold Py.sorted. apply StronglySorted_merge_sort; apply _. Qed.

Section Properties.

Context {St Res Kw BuildSystem Hook DebugPrinter : Type}.

Implicit Types (w : @World St) (self : @BuildProcess BuildSystem Hook DebugPrinter).

(** ** The world *)

Lemma extend_nil w : extend w [] = w.
Proof. destruct w. unfold extend. simpl. by rewrite app_nil_r. Qed.

Lemma extend_extend w (a b : list Event) :
  extend (extend w a) b = extend w (a ++ b).
Proof. unfold extend. simpl. by rewrite app_assoc. Qed.

Lemma calls_of_app (a b : list Event) :
  calls_of (a ++ b) = calls_of a ++ calls_of b.
Proof.
  induction a as [|e a IH]; simpl; [done|]. destruct e; simpl; by rewrite ?IH.
Qed.

Lemma printed_of_app (a b : list Event) :
  printed_of (a ++ b) = printed_of a ++ printed_of b.
Proof.
  induction a as [|e a IH]; simpl; [done|]. destruct e; simpl; by rewrite ?IH.
Qed.

Lemma calls_of_prints (ls : list string) : calls_of (EvPrint <$> ls) = [].
Proof.
  induction ls as [|l ls IH]; [done|].
  change (calls_of (EvPrint <$> ls) = []). exact IH.
Qed.

Lemma printed_of_prints (ls : list string) :
  printed_of (EvPrint <$> ls) = ls.
Proof.
  induction ls as [|l ls IH]; [done|].
  change (l :: printed_of (EvPrint <$> ls) = l :: ls). by rewrite IH.
Qed.

Lemma calls_of_calls (l : list Variant) : calls_of (EvCall <$> l) = l.
Proof.
  induction l as [|v l IH]; [done|].
  change (v :: calls_of (EvCall <$> l) = v :: l). by rewrite IH.
Qed.

Lemma printed_of_calls (l : list Variant) : printed_of (EvCall <$> l) = [].
Proof.
  induction l as [|v l IH]; [done|].
  change (printed_of (EvCall <$> l) = []). exact IH.
Qed.

(** ** The console helpers *)

Lemma _print_plain self (txt : string) w :
  _print self txt [] w
  = (Ret tt, extend w (if verbose self then [EvPrint txt] else [])).
Proof.
  unfold _print. destruct (verbose self); simpl.
  - reflexivity.
  - by rewrite extend_nil.
Qed.

Lemma _print_header_top self (txt : string) w :
  _print_header self txt 1 w
  = (Ret tt, extend w (EvPrint <$> header_block self txt)).
Proof.
  unfold _print_header, header_block, bind. rewrite !_print_plain. simpl.
  rewrite !_print_plain. rewrite !extend_extend.
  destruct (verbose self); simpl; reflexivity.
Qed.

(** ** The install path *)

Lemma endswith_slash_app (a b : string) :
  b ≠ "" → Py.endswith_slash (a +:+ b) = Py.endswith_slash b.
Proof.
  intros Hb. induction a as [|c a IH]; [done|].
  change (String c a +:+ b) with (String c (a +:+ b)).
  simpl. rewrite IH. destruct (a +:+ b) eqn:E; [|done].
  destruct a; [|done]. simpl in E. by subst.
Qed.

(** C6: [get_package_install_path] returns the install root joined with the
    package name and, when the package has a version, with the version; the
    join is that of [os.path.join].  For a root that is not empty and does
    not end with a slash, and a name and a version that are plain path
    segments, the path is literally [root/name/version] or [root/name].
    Equal inputs give equal paths. *)
Theorem get_package_install_path_spec self (install_root : string) :
  get_package_install_path self install_root
  = match version (package self) with
    | Some v =>
        Py.os_path_join
          (Py.os_path_join install_root (name (package self))) v
    | None => Py.os_path_join install_root (name (package self))
    end
  ∧ (install_root ≠ "" → Py.endswith_slash install_root = false →
     name (package self) ≠ "" →
     Py.startswith_slash (name (package self)) = false →
     Py.endswith_slash (name (package self)) = false →
     (∀ v, version (package self) = Some v → Py.startswith_slash v = false) →
     get_package_install_path self install_root
     = match version (package self) with
       | Some v => install_root +:+ "/" +:+ name (package self) +:+ "/" +:+ v
       | None => install_root +:+ "/" +:+ name (package self)
       end)
  ∧ (∀ self' (install_root' : string),
       self' = self → install_root' = install_root →
       get_package_install_path self' install_root'
       = get_package_install_path self install_root).
Proof.
  split; [|split].
  - unfold get_package_install_path. by destruct (version (package self)).
  - intros Hr Hre Hn Hns Hne Hv. unfold get_package_install_path.
    rewrite (os_path_join_plain install_root) by done.
    destruct (version (package self)) as [v|] eqn:Ev; [|done].
    rewrite os_path_join_plain.
    + clear. generalize (name (package self)) as n. intros n.
      induction install_root as [|c r IH]; [done|].
      change (String c r +:+ "/" +:+ n)
        with (String c (r +:+ "/" +:+ n)).
      change (String c r +:+ "/" +:+ n +:+ "/" +:+ v)
        with (String c (r +:+ "/" +:+ n +:+ "/" +:+ v)).
      change (String c (r +:+ "/" +:+ n) +:+ "/" +:+ v)
        with (String c ((r +:+ "/" +:+ n) +:+ "/" +:+ v)).
      by rewrite IH.
    + by apply Hv.
    + by destruct install_root.
    + rewrite endswith_slash_app.
      * change ("/" +:+ name (package self))
          with (String "/" (name (package self))).
        simpl. by destruct (name (package self)).
      * done.
  - by intros ?? -> ->.
Qed.

(** ** The progress position *)

(** C9: the position string of [_n_of_m] is [i/n], where [i] is the
    variant's index plus one (an absent index counting as 0) and [n] is the
    maximum of the package's variant count and 1; for a package with a
    single variant, or with none (its only variant has no index), it is
    [1/1]. *)
Theorem _n_of_m_position self (variant : Variant) :
  _n_of_m self variant
  = Py.str_int (default 0 (index variant) + 1) +:+ "/" +:+
    Py.str_int (Z.max (num_variants (package self)) 1)
  ∧ (declared_variants (package self) →
     num_variants (package self) ≤ 1 →
     variant ∈ iter_variants (package self) →
     _n_of_m self variant = "1/1").
Proof.
  assert (Hform : _n_of_m self variant
    = Py.str_int (default 0 (index variant) + 1) +:+ "/" +:+
      Py.str_int (Z.max (num_variants (package self)) 1)).
  { unfold _n_of_m. destruct (index variant) as [i|]; simpl; [|done].
    case_bool_decide; by subst. }
  split; [done|]. intros Hdecl Hn Hin. rewrite Hform.
  assert (Hidx : index variant ∈ index <$> iter_variants (package self))
    by (by apply list_elem_of_fmap_2).
  rewrite Hdecl in Hidx. replace (Z.max (num_variants (package self)) 1) with 1 by lia.
  case_bool_decide as Hz.
  - apply list_elem_of_singleton in Hidx as ->. reflexivity.
  - assert (Hone : num_variants (package self) = 1) by lia.
    rewrite Hone in Hidx. change (Py.range 1) with [0] in Hidx.
    apply list_elem_of_singleton in Hidx as ->. reflexivity.
Qed.

(** ** The constructor *)

Section Constructor.

Variable get_developer_package : string → Outcome Package.
Variable create_release_hooks : list string → string → list Hook.
Variable debug_printer : string → DebugPrinter.

(** C4: a VCS whose root path differs from the working directory makes the
    constructor raise the mismatch error, whatever the other arguments and
    collaborators are, and leaves the world as it was: no package was
    loaded and no hook created. *)
Theorem init_mismatched_vcs (working_dir : string)
    (build_system : BuildSystem) (v : ReleaseVCS)
    (ensure_latest verbose : bool) w :
  path v ≠ working_dir →
  __init__ get_developer_package create_release_hooks debug_printer
    working_dir build_system (Some v) ensure_latest verbose w
  = (Raise (BuildProcessError
       "Build process was instantiated with a mismatched VCS instance"), w).
Proof.
  intros Hne. unfold __init__. rewrite bool_decide_eq_true_2 by done.
  reflexivity.
Qed.

(** Without a mismatch the constructor starts by loading the package. *)
Lemma init_loads_package (working_dir : string)
    (build_system : BuildSystem) (vcs : option ReleaseVCS)
    (ensure_latest verbose : bool) w :
  (∀ v, vcs = Some v → path v = working_dir) →
  ∃ evs, trace (__init__ get_developer_package create_release_hooks
                  debug_printer working_dir build_system vcs ensure_latest
                  verbose w).2
         = trace w ++ EvLoadPackage working_dir :: evs.
Proof.
  intros Hv. unfold __init__.
  assert (match vcs with
          | Some v => bool_decide (path v ≠ working_dir)
          | None => false
          end = false) as ->.
  { destruct vcs as [v|]; [|done]. apply bool_decide_eq_false_2.
    intros Hne. by apply Hne, Hv. }
  unfold bind, emit. simpl.
  destruct (get_developer_package working_dir) as [p|e]; simpl.
  - eexists. rewrite <- app_assoc. reflexivity.
  - by exists [].
Qed.

End Constructor.


(** ** The build context *)

Section BuildContext.

Variable solve : list Requirement → list string → Outcome ResolverStatus.t.
Variable report : Context → Outcome unit.
Variable write : Context → string → Outcome unit.

Lemma _print_resolving self (s : string) w :
  _print self "Resolving build environment: %s" [s] w
  = (Ret tt, extend w (if verbose self
       then [EvPrint ("Resolving build environment: " +:+ s)] else [])).
Proof.
  unfold _print. destruct (verbose self).
  - unfold bind. by rewrite percent_format_resolving.
  - unfold ret. by rewrite extend_nil.
Qed.

Lemma raise_global_bound {A} (cls : string) (e : Exn) w :
  cls ∈ module_globals → @raise_global St A cls e w = (Raise e, w).
Proof. intros H. unfold raise_global. by rewrite bool_decide_eq_true_2. Qed.

(** The runs of [create_build_context], by what its collaborators do: an
    exception of the resolver, of the report or of the save ends the run
    where it is raised; the status is looked at after the save only. *)
Lemma create_build_context_run self (variant : Variant)
    (build_type : BuildType.t) (build_path : string) w :
  create_build_context solve report write self variant build_type
    build_path w
  = match solve (get_requires variant true true)
                (search_paths self build_type) with
    | Raise e =>
        (Raise e, extend w (build_context_request self variant build_type))
    | Ret st =>
        let c := build_context self variant build_type st in
        let rxt := Py.os_path_join build_path "build.rxt" in
        match (if verbose self then report c else Ret tt) with
        | Raise e =>
            (Raise e,
             extend w (build_context_prelude self variant build_type st))
        | Ret _ =>
            match write c rxt with
            | Raise e =>
                (Raise e,
                 extend w (build_context_events self variant build_type
                             build_path st))
            | Ret _ =>
                (if bool_decide (st ≠ ResolverStatus.solved)
                 then Raise (BuildContextResolveError c)
                 else Ret (c, rxt),
                 extend w (build_context_events self variant build_type
                             build_path st))
            end
        end
    end.
Proof.
  unfold create_build_context, bind. rewrite _print_resolving.
  unfold ResolvedContext, bind, emit, ret.
  unfold build_context_events, build_context_prelude, build_context_request,
    build_context.
  assert (Hpaths : match build_type with
                   | BuildType.local => packages_path (config (package self))
                   | _ => nonlocal_packages_path (config (package self))
                   end = search_paths self build_type)
    by (by destruct build_type).
  rewrite Hpaths.
  destruct (solve _ _) as [st|e]; [|by rewrite extend_extend].
  cbv zeta. unfold print_info, save, bind, emit.
  destruct (verbose self).
  - destruct (report _) as [[]|e]; [|by rewrite !extend_extend].
    destruct (write _ _) as [[]|e];
      [|by rewrite !extend_extend, <- !app_assoc].
    rewrite !extend_extend, <- !app_assoc. cbn [status].
    case_bool_decide; [|done].
    rewrite raise_global_bound; [done|].
    apply (bool_decide_unpack _). by vm_compute.
  - unfold ret. destruct (write _ _) as [[]|e];
      [|by rewrite !extend_extend, <- !app_assoc, ?app_nil_r].
    rewrite !extend_extend, <- !app_assoc, ?app_nil_r. cbn [status].
    case_bool_decide; [|done].
    rewrite raise_global_bound; [done|].
    apply (bool_decide_unpack _). by vm_compute.
Qed.

(** C1: [create_build_context] saves the context it resolved to
    [build.rxt] under the build path before it looks at the context's
    status.  The resolver, the context's report and the save may each
    raise; such an exception ends the run as it is, and before the save
    nothing has been saved.  In a run that reaches the save, the save of
    the resolved context is the last action, whatever the status is.  When
    the save returns, the resolve error, carrying that context, is raised
    exactly when the status is not solved, and otherwise the context
    and the snapshot path are returned.  So a result is returned, and
    the resolve error of this function is raised, only after a save that
    returned. *)
Theorem create_build_context_snapshot_first self (variant : Variant)
    (build_type : BuildType.t) (build_path : string) w :
  let request := get_requires variant true true in
  let paths := search_paths self build_type in
  let rxt := Py.os_path_join build_path "build.rxt" in
  let r := create_build_context solve report write self variant build_type
             build_path w in
  (∀ e, solve request paths = Raise e →
     r.1 = Raise e
     ∧ ∃ evs, trace r.2 = trace w ++ evs ∧ saves_of evs = [])
  ∧ (∀ st, solve request paths = Ret st →
     let c := build_context self variant build_type st in
     (∀ e, verbose self = true → report c = Raise e →
        r.1 = Raise e
        ∧ ∃ evs, trace r.2 = trace w ++ evs ∧ saves_of evs = [])
     ∧ ((verbose self = true → report c = Ret tt) →
        (∃ before, trace r.2 = trace w ++ before ++ [EvSave rxt c]
                   ∧ saves_of before = [])
        ∧ (∀ e, write c rxt = Raise e → r.1 = Raise e)
        ∧ (write c rxt = Ret tt →
           (r.1 = Raise (BuildContextResolveError c)
            ↔ st ≠ ResolverStatus.solved)
           ∧ (st = ResolverStatus.solved → r.1 = Ret (c, rxt)))))
  ∧ (∀ x, r.1 = Ret x →
     ∃ c, x = (c, rxt) ∧ status c = ResolverStatus.solved
          ∧ write c rxt = Ret tt
          ∧ ∃ before, trace r.2 = trace w ++ before ++ [EvSave rxt c])
  ∧ ((∀ c', solve request paths ≠ Raise (BuildContextResolveError c')) →
     (∀ c0 c', report c0 ≠ Raise (BuildContextResolveError c')) →
     (∀ c0 c', write c0 rxt ≠ Raise (BuildContextResolveError c')) →
     ∀ c, r.1 = Raise (BuildContextResolveError c) →
       status c ≠ ResolverStatus.solved
       ∧ write c rxt = Ret tt
       ∧ ∃ before, trace r.2 = trace w ++ before ++ [EvSave rxt c]).
Proof.
  intros request paths rxt r. subst r. rewrite create_build_context_run.
  fold request paths rxt. cbv zeta.
  assert (Hquiet : ∀ st, saves_of
            (build_context_prelude self variant build_type st) = []).
  { intros st. unfold build_context_prelude, build_context_request.
    by destruct (verbose self). }
  assert (Hfirst : saves_of (build_context_request self variant build_type)
                   = []).
  { unfold build_context_request. by destruct (verbose self). }
  destruct (solve request paths) as [st|e0] eqn:Hsolve.
  - set (c := build_context self variant build_type st).
    split; [by intros e [=]|]. split; [|split].
    + intros st' [= <-]. fold c. split.
      * intros e Hv Hrep. rewrite Hv, Hrep. cbn [fst snd extend trace].
        split; [done|]. by exists (build_context_prelude self variant
                                     build_type st).
      * intros Hrep.
        assert ((if verbose self then report c else Ret tt) = Ret tt) as ->.
        { destruct (verbose self); [by apply Hrep|done]. }
        split; [|split].
        -- exists (build_context_prelude self variant build_type st).
           split; [|done]. by destruct (write c rxt) as [[]|e].
        -- by intros e ->.
        -- intros ->. cbn [fst]. split; [|intros ->; done].
           case_bool_decide; split; first [done | intros H; by inversion H].
    + intros x Hret. destruct (if verbose self then report c else Ret tt)
        as [[]|e]; [|done].
      destruct (write c rxt) as [[]|e] eqn:Hw; [|done].
      cbn [fst snd extend trace] in *.
      case_bool_decide as Hst; [done|]. injection Hret as <-.
      exists c. split; [done|]. split.
      * cbn [status c build_context].
        destruct (decide (st = ResolverStatus.solved)); [done|by destruct Hst].
      * split; [done|].
        by exists (build_context_prelude self variant build_type st).
    + intros Hs Hr Hwr c' Hraise.
      destruct (if verbose self then report c else Ret tt)
        as [[]|e] eqn:Hrep.
      * destruct (write c rxt) as [[]|e] eqn:Hw.
        -- cbn [fst snd extend trace] in *.
           case_bool_decide as Hst; [|done]. injection Hraise as <-.
           split; [done|]. split; [done|].
           by exists (build_context_prelude self variant build_type st).
        -- cbn [fst] in Hraise. injection Hraise as ->.
           by destruct (Hwr c c').
      * cbn [fst] in Hraise. injection Hraise as ->.
        destruct (verbose self); [|done]. by destruct (Hr c c').
  - split; [|split; [by intros st [=]|split]].
    + intros e [= <-]. cbn [fst snd extend trace]. split; [done|].
      by exists (build_context_request self variant build_type).
    + by intros x [=].
    + intros Hs _ _ c' Hraise. cbn [fst] in Hraise. injection Hraise as ->.
      by destruct (Hs c').
Qed.

(** C7: the package search paths [create_build_context] resolves against
    depend on the build type only: the package's [packages_path] for a
    local build and its [nonlocal_packages_path] for a central one.  In
    every run, also one in which a collaborator raises, the resolver is
    called once, with the variant's requirements (the build and private
    build ones included) and those paths.  A context the function saves
    or returns carries those paths, and so does the context of its resolve
    error; any other exception is one a collaborator raised. *)
Theorem create_build_context_search_paths self (variant : Variant)
    (build_type : BuildType.t) (build_path : string) w :
  let paths :=
    match build_type with
    | BuildType.local => packages_path (config (package self))
    | BuildType.central => nonlocal_packages_path (config (package self))
    end in
  let request := get_requires variant true true in
  let r := create_build_context solve report write self variant build_type
             build_path w in
  ∃ evs,
    trace r.2 = trace w ++ evs
    ∧ resolves_of evs = [(request, paths, true)]
    ∧ (∀ f c, (f, c) ∈ saves_of evs → package_paths c = paths)
    ∧ (∀ c f, r.1 = Ret (c, f) → package_paths c = paths)
    ∧ (∀ e, r.1 = Raise e →
         (∃ c, e = BuildContextResolveError c ∧ package_paths c = paths)
         ∨ solve request paths = Raise e
         ∨ (∃ c, report c = Raise e)
         ∨ (∃ c f, write c f = Raise e)).
Proof.
  intros paths request r. subst r. rewrite create_build_context_run.
  assert (Hpaths : search_paths self build_type = paths)
    by (by destruct build_type).
  rewrite Hpaths. fold request. cbv zeta.
  assert (Hreq : resolves_of (build_context_request self variant build_type)
                 = [(request, paths, true)]).
  { unfold build_context_request. rewrite Hpaths.
    by destruct (verbose self). }
  assert (Hpre : ∀ st,
    resolves_of (build_context_prelude self variant build_type st)
    = [(request, paths, true)]
    ∧ saves_of (build_context_prelude self variant build_type st) = []).
  { intros st. unfold build_context_prelude, build_context_request.
    rewrite Hpaths. by destruct (verbose self). }
  assert (Hall : ∀ st,
    resolves_of (build_context_events self variant build_type build_path st)
    = [(request, paths, true)]
    ∧ saves_of (build_context_events self variant build_type build_path st)
      = [(Py.os_path_join build_path "build.rxt",
          build_context self variant build_type st)]).
  { intros st. unfold build_context_events, build_context_prelude,
      build_context_request. rewrite Hpaths. by destruct (verbose self). }
  assert (Hcarry : ∀ st,
    package_paths (build_context self variant build_type st) = paths)
    by (intros st; exact Hpaths).
  destruct (solve request paths) as [st|e0] eqn:Hsolve.
  - destruct (if verbose self
              then report (build_context self variant build_type st)
              else Ret tt) as [[]|e1] eqn:Hrep.
    + destruct (write (build_context self variant build_type st)
                  (Py.os_path_join build_path "build.rxt"))
        as [[]|e2] eqn:Hw.
      * exists (build_context_events self variant build_type build_path st).
        cbn [fst snd extend trace]. destruct (Hall st) as [Hres Hsav].
        split; [done|]. split; [done|]. split; [|split].
        -- intros f c. rewrite Hsav. intros Hin.
           apply list_elem_of_singleton in Hin. injection Hin as -> ->.
           apply Hcarry.
        -- intros c f. case_bool_decide; [done|]. intros [= <- _].
           apply Hcarry.
        -- intros e. case_bool_decide; [|done]. intros [= <-]. left.
           eexists. split; [done|]. apply Hcarry.
      * exists (build_context_events self variant build_type build_path st).
        cbn [fst snd extend trace]. destruct (Hall st) as [Hres Hsav].
        split; [done|]. split; [done|]. split; [|split; [done|]].
        -- intros f c. rewrite Hsav. intros Hin.
           apply list_elem_of_singleton in Hin. injection Hin as -> ->.
           apply Hcarry.
        -- intros e [= <-]. right. right. right. by eexists _, _.
    + exists (build_context_prelude self variant build_type st).
      cbn [fst snd extend trace]. destruct (Hpre st) as [Hres Hsav].
      split; [done|]. split; [done|]. split; [|split; [done|]].
      * intros f c. rewrite Hsav. intros Hin. by apply elem_of_nil in Hin.
      * intros e [= <-]. right. right. left.
        destruct (verbose self); [by eexists|done].
  - exists (build_context_request self variant build_type).
    cbn [fst snd extend trace]. split; [done|]. split; [done|].
    split; [|split; [done|]].
    + intros f c. unfold build_context_request.
      destruct (verbose self); intros Hin; by apply elem_of_nil in Hin.
    + intros e [= <-]. right. by left.
Qed.

End BuildContext.

(** ** The factory *)

Section Factory.

Variable get_plugins : string → list string.
Variable get_plugin_class :
  string → string → Outcome (@Cls St BuildSystem Hook DebugPrinter).

(** The membership test of [create_build_process] compares the requested
    name with itself, so it never fails: every name, registered or not, is
    handed to the plugin manager. *)
Lemma create_build_process_check_passes (process_type working_dir : string)
    (build_system : BuildSystem) (vcs : option ReleaseVCS)
    (ensure_latest verbose : bool) w :
  create_build_process get_plugins get_plugin_class process_type working_dir
    build_system vcs ensure_latest verbose w
  = match get_plugin_class "build_process" process_type with
    | Ret cls =>
        cls working_dir build_system vcs ensure_latest verbose
            (extend w [EvGetPluginClass "build_process" process_type])
    | Raise e =>
        (Raise e, extend w [EvGetPluginClass "build_process" process_type])
    end.
Proof.
  unfold create_build_process. rewrite str_contains_refl. cbn [negb].
  unfold bind, emit. by destruct (get_plugin_class _ _).
Qed.

End Factory.


(** ** The traversal *)

Section Traversal.

Variable func : Variant → Kw → St → Outcome Res * St.

Lemma call_all_length (kwargs : Kw) (vs : list Variant) (s s' : St)
    (rs : list Res) :
  call_all func kwargs vs s = (Ret rs, s') → length rs = length vs.
Proof.
  revert s rs. induction vs as [|v vs IH]; intros s rs; simpl.
  - by intros [= <- _].
  - destruct (func v kwargs s) as [[r|e] s1]; [|done].
    destruct (call_all func kwargs vs s1) as [[rs1|e] s2] eqn:E; [|done].
    intros [= <- <-]. simpl. f_equal. by eapply IH.
Qed.

(** The loop, when the callback returns on every variant it is given. *)
Lemma visit_loop_returns self (variants : option (list Z)) (kwargs : Kw)
    (todo : list Variant) (results : list Res) (n : Z) w
    (rs : list Res) (s' : St) :
  call_all func kwargs (filter (λ v, ¬ skips variants v) todo) (user w)
  = (Ret rs, s') →
  visit_loop func self variants kwargs todo results n w
  = (Ret (n + Z.of_nat (length rs), results ++ rs),
     {| user := s';
        trace := trace w ++ (todo ≫= loop_events self variants) |}).
Proof.
  revert results n w rs. induction todo as [|v todo IH];
    intros results n w rs Hall.
  - simpl in Hall. injection Hall as <- <-. simpl.
    rewrite Z.add_0_r, !app_nil_r. by destruct w.
  - cbn [visit_loop mbind list_bind]. unfold loop_events at 1.
    fold (skips variants v). destruct (skips variants v) eqn:Hskip.
    + rewrite filter_cons_False in Hall by (rewrite Hskip; intros H; by apply H).
      unfold bind. rewrite _print_header_top.
      rewrite (IH results n (extend w _) rs Hall).
      unfold extend, skip_report. cbn [user trace]. by rewrite <- app_assoc.
    + rewrite filter_cons_True in Hall by (rewrite Hskip; intros []).
      cbn [call_all] in Hall. unfold bind, call.
      destruct (func v kwargs (user w)) as [[r|e] s1]; [|done].
      destruct (call_all func kwargs _ s1) as [[rs1|e] s2] eqn:E; [|done].
      injection Hall as <- <-.
      rewrite (IH (results ++ [r]) (n + 1)
                 {| user := s1; trace := trace w ++ [EvCall v] |} rs1 E).
      cbn [user trace length]. rewrite <- !app_assoc.
      replace (n + 1 + Z.of_nat (length rs1))
        with (n + Z.of_nat (S (length rs1))) by lia.
      reflexivity.
Qed.

(** The loop, whatever the callback does: the variants it is invoked on
    are taken in order from the ones to come, each at most once, and the
    count grows with the results. *)
Lemma visit_loop_any self (variants : option (list Z)) (kwargs : Kw)
    (todo : list Variant) (results : list Res) (n : Z) w :
  ∃ evs,
    trace (visit_loop func self variants kwargs todo results n w).2
    = trace w ++ evs
    ∧ calls_of evs `sublist_of` todo
    ∧ ∀ n' rs,
        (visit_loop func self variants kwargs todo results n w).1
        = Ret (n', rs) →
        n' - Z.of_nat (length rs) = n - Z.of_nat (length results).
Proof.
  revert results n w. induction todo as [|v todo IH]; intros results n w.
  - exists []. cbn [visit_loop ret fst snd]. rewrite app_nil_r.
    split; [done|]. split; [constructor|]. by intros ?? [= <- <-].
  - cbn [visit_loop].
    destruct (truthy variants &&
              negb (Py.opt_in (index v) (requested variants))).
    + unfold bind. rewrite _print_header_top.
      destruct (IH results n (extend w (EvPrint <$>
        header_block self ("Skipping " +:+ _n_of_m self v +:+ "..."))))
        as (evs & Htr & Hsub & Hcount).
      eexists (_ ++ evs). rewrite Htr. unfold extend. cbn [trace].
      rewrite <- app_assoc. split; [done|]. split; [|done].
      rewrite calls_of_app, calls_of_prints. by apply sublist_cons.
    + unfold bind, call.
      destruct (func v kwargs (user w)) as [[r|e] s1].
      * destruct (IH (results ++ [r]) (n + 1)
          {| user := s1; trace := trace w ++ [EvCall v] |})
          as (evs & Htr & Hsub & Hcount).
        exists (EvCall v :: evs). rewrite Htr. cbn [trace].
        rewrite <- app_assoc. split; [done|]. split.
        -- cbn [calls_of]. by apply sublist_skip.
        -- intros n' rs Hret. specialize (Hcount n' rs Hret).
           rewrite length_app in Hcount. cbn [length] in Hcount. lia.
      * exists [EvCall v]. cbn [fst snd trace]. split; [done|]. split.
        -- cbn [calls_of]. apply sublist_skip, sublist_nil_l.
        -- done.
Qed.

(** The validation passes when nothing is requested or every requested
    index is present. *)
Lemma visit_variants_valid self (variants : option (list Z))
    (kwargs : Kw) w :
  (∀ i, i ∈ requested variants → i ∈ present_variants self) →
  visit_variants func self variants kwargs w
  = visit_loop func self variants kwargs (iter_variants (package self))
      [] 0 w.
Proof.
  intros Hvalid. unfold visit_variants, bind.
  destruct (truthy variants); [|done].
  rewrite bool_decide_eq_true_2; [done|].
  unfold invalid_variants. apply set_eq. intros i.
  rewrite elem_of_difference, !elem_of_list_to_set.
  split; [intros [Hin Hout]; by destruct (Hout (Hvalid i Hin))|intros Hin].
  by apply not_elem_of_empty in Hin.
Qed.

(** A request that names an index the package does not have stops
    [visit_variants] at its [raise] statement, which fails on the name
    [BuildError]: the module does not bind it.  Nothing else happens: the
    world is as it was, so the callback is not invoked. *)
Lemma visit_variants_invalid self (variants : option (list Z))
    (kwargs : Kw) w (i : Z) :
  i ∈ requested variants → i ∉ present_variants self →
  visit_variants func self variants kwargs w
  = (Raise (NameError "BuildError"), w).
Proof.
  intros Hin Hout. unfold visit_variants, bind.
  assert (truthy variants = true) as ->.
  { unfold truthy. destruct (requested variants); [|done].
    by apply elem_of_nil in Hin. }
  rewrite bool_decide_eq_false_2.
  - reflexivity.
  - intros Hempty. assert (Hi : i ∈ invalid_variants self variants).
    { unfold invalid_variants.
      rewrite elem_of_difference, !elem_of_list_to_set. done. }
    rewrite Hempty in Hi. by apply not_elem_of_empty in Hi.
Qed.

(** Under a request that is not empty the loop passes over exactly the
    variants the request does not name. *)
Lemma skips_request (vs : list Z) (v : Variant) :
  vs ≠ [] → skips (Some vs) v = negb (Py.opt_in (index v) vs).
Proof. intros Hvs. unfold skips, truthy. simpl. by destruct vs. Qed.

Lemma calls_of_turns self (vs : list Z) (l : list Variant) :
  calls_of (l ≫= turn self vs) = filter (chosen vs) l.
Proof.
  induction l as [|v l IH]; [done|].
  cbn [mbind list_bind]. rewrite calls_of_app, IH, filter_cons.
  unfold turn. destruct (decide (chosen vs v)) as [Hc|Hc];
    unfold chosen in Hc; destruct (Py.opt_in (index v) vs);
    first [ done | by rewrite calls_of_prints | exfalso; by apply Hc ].
Qed.

Lemma printed_of_turns self (vs : list Z) (l : list Variant) :
  printed_of (l ≫= turn self vs)
  = filter (λ v, ¬ chosen vs v) l ≫= skip_report self.
Proof.
  induction l as [|v l IH]; [done|].
  cbn [mbind list_bind]. rewrite printed_of_app, IH, filter_cons.
  unfold turn. destruct (decide (¬ chosen vs v)) as [Hc|Hc];
    unfold chosen in Hc; destruct (Py.opt_in (index v) vs);
    first [ done | by rewrite printed_of_prints
          | exfalso; by apply Hc | exfalso; apply Hc; by intros [] ].
Qed.

(** C5: under a request that is not empty and names present indices only,
    [visit_variants] invokes the callback on exactly the variants whose
    index the request names, in the package's order; for each other
    variant it prints the skip header (through [_print_header], so only
    when the process is verbose) and goes on; it returns, with the results
    of the calls in order and a count that is the number of variants
    selected.  The callback is taken to return on each of these variants. *)
Theorem visit_variants_requested self (vs : list Z) (kwargs : Kw) w
    (rs : list Res) (s' : St) :
  let selected := filter (chosen vs) (iter_variants (package self)) in
  let passed := filter (λ v, ¬ chosen vs v) (iter_variants (package self)) in
  vs ≠ [] →
  (∀ i, i ∈ vs → i ∈ present_variants self) →
  call_all func kwargs selected (user w) = (Ret rs, s') →
  ∃ evs,
    visit_variants func self (Some vs) kwargs w
    = (Ret (Z.of_nat (length selected), rs),
       {| user := s'; trace := trace w ++ evs |})
    ∧ evs = iter_variants (package self) ≫= turn self vs
    ∧ calls_of evs = selected
    ∧ printed_of evs = passed ≫= skip_report self
    ∧ (verbose self = true →
       printed_of evs
       = passed ≫= λ v, [""; Py.repeat_char "-" 80;
                         "Skipping " +:+ _n_of_m self v +:+ "...";
                         Py.repeat_char "-" 80])
    ∧ (verbose self = false → printed_of evs = [])
    ∧ length rs = length selected.
Proof.
  intros selected passed Hvs Hvalid Hall.
  exists (iter_variants (package self) ≫= turn self vs).
  assert (Hsel : filter (λ v, ¬ skips (Some vs) v)
                   (iter_variants (package self)) = selected).
  { apply list_filter_iff. intros v. rewrite skips_request by done.
    unfold chosen. destruct (Py.opt_in (index v) vs); cbn [negb Is_true];
      naive_solver. }
  assert (Hev : iter_variants (package self) ≫= loop_events self (Some vs)
                = iter_variants (package self) ≫= turn self vs).
  { apply list_bind_ext; [|done]. intros v. unfold loop_events, turn.
    rewrite skips_request by done. by destruct (Py.opt_in (index v) vs). }
  rewrite visit_variants_valid by done.
  rewrite (visit_loop_returns _ _ _ _ _ _ _ rs s') by (by rewrite Hsel).
  rewrite Hev, (call_all_length _ _ _ _ _ Hall), Z.add_0_l.
  split; [done|]. split; [done|].
  split; [apply calls_of_turns|].
  split; [apply printed_of_turns|].
  split; [|split; [|done]].
  - intros Hv. rewrite printed_of_turns. apply list_bind_ext; [|done].
    intros v. unfold skip_report, header_block. by rewrite Hv.
  - intros Hv. rewrite printed_of_turns. fold passed.
    induction passed as [|v l IH]; [done|]. cbn [mbind list_bind].
    rewrite IH. unfold skip_report, header_block. by rewrite Hv.
Qed.

(** C8: when the request is [None] or empty, [visit_variants] validates
    nothing and passes over nothing: it invokes the callback on every
    variant of the package, in order, and that is all it does; it returns
    the results of the calls and their number.  The callback is taken to
    return on each variant. *)
Theorem visit_variants_all self (variants : option (list Z)) (kwargs : Kw)
    w (rs : list Res) (s' : St) :
  variants = None ∨ variants = Some [] →
  call_all func kwargs (iter_variants (package self)) (user w)
  = (Ret rs, s') →
  visit_variants func self variants kwargs w
  = (Ret (Z.of_nat (length (iter_variants (package self))), rs),
     {| user := s';
        trace := trace w ++ (EvCall <$> iter_variants (package self)) |})
  ∧ calls_of (EvCall <$> iter_variants (package self))
    = iter_variants (package self)
  ∧ printed_of (EvCall <$> iter_variants (package self)) = [].
Proof.
  intros Hnone Hall.
  assert (Hreq : requested variants = []) by (by destruct Hnone as [-> | ->]).
  assert (Hskip : ∀ v, skips variants v = false).
  { intros v. unfold skips, truthy. by rewrite Hreq. }
  assert (Hsel : ∀ l : list Variant, filter (λ v, ¬ skips variants v) l = l).
  { intros l. induction l as [|v l IH]; [done|].
    rewrite filter_cons_True by (rewrite Hskip; intros []). by rewrite IH. }
  assert (Hev : ∀ l : list Variant,
            l ≫= loop_events self variants = EvCall <$> l).
  { intros l. induction l as [|v l IH]; [done|]. cbn [mbind list_bind].
    rewrite IH. unfold loop_events. by rewrite Hskip. }
  split; [|split].
  - rewrite visit_variants_valid
      by (intros i Hi; rewrite Hreq in Hi; by apply elem_of_nil in Hi).
    rewrite (visit_loop_returns _ _ _ _ _ _ _ rs s') by (by rewrite Hsel).
    by rewrite Hev, (call_all_length _ _ _ _ _ Hall), Z.add_0_l.
  - apply calls_of_calls.
  - apply printed_of_calls.
Qed.

(** C10: whatever the request, the callback and the outcome are, the
    variants [visit_variants] invokes the callback on are taken in order
    from the package's variants, each at most once (so without repetition
    when the package's variants are distinct), and a count it returns is
    the length of the results it returns with it. *)
Theorem visit_variants_at_most_once self (variants : option (list Z))
    (kwargs : Kw) w :
  ∃ evs,
    trace (visit_variants func self variants kwargs w).2 = trace w ++ evs
    ∧ calls_of evs `sublist_of` iter_variants (package self)
    ∧ (NoDup (iter_variants (package self)) → NoDup (calls_of evs))
    ∧ ∀ n rs,
        (visit_variants func self variants kwargs w).1 = Ret (n, rs) →
        n = Z.of_nat (length rs).
Proof.
  assert (Hloop : ∃ evs,
    trace (visit_variants func self variants kwargs w).2 = trace w ++ evs
    ∧ calls_of evs `sublist_of` iter_variants (package self)
    ∧ ∀ n rs,
        (visit_variants func self variants kwargs w).1 = Ret (n, rs) →
        n = Z.of_nat (length rs)).
  { destruct (visit_loop_any self variants kwargs
                (iter_variants (package self)) [] 0 w)
      as (evs & Htr & Hsub & Hcount).
    assert (Hgo : ∃ evs,
      trace (visit_loop func self variants kwargs
               (iter_variants (package self)) [] 0 w).2 = trace w ++ evs
      ∧ calls_of evs `sublist_of` iter_variants (package self)
      ∧ ∀ n rs,
          (visit_loop func self variants kwargs
             (iter_variants (package self)) [] 0 w).1 = Ret (n, rs) →
          n = Z.of_nat (length rs)).
    { exists evs. split; [done|]. split; [done|]. intros n rs Hret.
      specialize (Hcount n rs Hret). cbn [length] in Hcount. lia. }
    unfold visit_variants, bind.
    destruct (truthy variants); [|exact Hgo].
    destruct (bool_decide (invalid_variants self variants = ∅));
      [exact Hgo|].
    cbn [negb]. unfold raise_global.
    exists []. rewrite app_nil_r.
    destruct (bool_decide _); cbn [fst snd];
      (split; [done|]; split; [apply sublist_nil_l|done]). }
  destruct Hloop as (evs & Htr & Hsub & Hcount). exists evs.
  split; [done|]. split; [done|]. split; [|done].
  intros Hnd. by eapply sublist_NoDup.
Qed.

End Traversal.

End Properties.

(** * The properties at work on the sample package *)

Lemma get_package_install_path_witness :
  get_package_install_path (Sample.process Sample.pkg false) "/r"
  = "/r/P/1.2.3".
Proof.
  refine (proj1 (proj2 (get_package_install_path_spec
            (Sample.process Sample.pkg false) "/r")) _ _ _ _ _ _).
  - done.
  - reflexivity.
  - done.
  - reflexivity.
  - reflexivity.
  - intros v [= <-]. reflexivity.
Defined.

Lemma _n_of_m_witness :
  _n_of_m (Sample.process Sample.bare true) (Sample.variant None) = "1/1".
Proof.
  refine (proj2 (_n_of_m_position (Sample.process Sample.bare true)
                   (Sample.variant None)) _ _ _).
  - reflexivity.
  - vm_compute. discriminate.
  - apply list_elem_of_singleton. reflexivity.
Defined.

Lemma init_mismatched_vcs_witness :
  path {| path := "/elsewhere" |} ≠ "/w"
  ∧ __init__ Sample.get_developer_package (λ _ _, @nil unit) (λ _, tt)
      "/w" tt (Some {| path := "/elsewhere" |}) true false Sample.world
    = (Raise (BuildProcessError
         "Build process was instantiated with a mismatched VCS instance"),
       Sample.world).
Proof.
  assert (H : path {| path := "/elsewhere" |} ≠ "/w") by done.
  split; [exact H|].
  exact (init_mismatched_vcs Sample.get_developer_package (λ _ _, @nil unit)
           (λ _, tt) "/w" tt {| path := "/elsewhere" |} true false
           Sample.world H).
Defined.

Lemma create_build_context_snapshot_witness :
  let r := create_build_context Sample.solve Sample.report Sample.write
             (Sample.process Sample.pkg false) (Sample.variant (Some 0))
             BuildType.central "/w/build" Sample.world in
  let c := build_context (Sample.process Sample.pkg false)
             (Sample.variant (Some 0)) BuildType.central
             ResolverStatus.failed in
  r.1 = Raise (BuildContextResolveError c)
  ∧ status c ≠ ResolverStatus.solved
  ∧ Sample.write c "/w/build/build.rxt" = Ret tt
  ∧ ∃ before,
      trace r.2
      = trace Sample.world ++ before ++ [EvSave "/w/build/build.rxt" c].
Proof.
  intros r c. split; [reflexivity|].
  apply (proj2 (proj2 (proj2 (create_build_context_snapshot_first
           Sample.solve Sample.report Sample.write
           (Sample.process Sample.pkg false)
           (Sample.variant (Some 0)) BuildType.central "/w/build"
           Sample.world)))).
  - intros c' H. vm_compute in H. discriminate.
  - intros c0 c' H. discriminate.
  - intros c0 c' H. unfold Sample.write in H.
    destruct (bool_decide _) in H; discriminate.
  - reflexivity.
Defined.

Lemma visit_variants_requested_witness :
  (visit_variants Sample.func (Sample.process Sample.pkg true)
     (Some [0; 2]) tt Sample.world).1
  = Ret (2, [Some 0; Some 2]).
Proof.
  destruct (visit_variants_requested Sample.func
              (Sample.process Sample.pkg true) [0; 2] tt Sample.world
              [Some 0; Some 2] 2%nat) as (evs & Hrun & _).
  - done.
  - apply Forall_forall. apply (bool_decide_unpack _). by vm_compute.
  - reflexivity.
  - rewrite Hrun. reflexivity.
Defined.

Lemma visit_variants_all_witness :
  visit_variants Sample.func (Sample.process Sample.pkg true) None tt
    Sample.world
  = (Ret (3, [Some 0; Some 1; Some 2]),
     {| user := 3%nat;
        trace := EvCall <$> iter_variants Sample.pkg |}).
Proof.
  refine (proj1 (visit_variants_all Sample.func
            (Sample.process Sample.pkg true) None tt Sample.world
            [Some 0; Some 1; Some 2] 3%nat _ _)).
  - by left.
  - reflexivity.
Defined.

Lemma visit_variants_at_most_once_witness :
  (visit_variants Sample.func (Sample.process Sample.pkg true)
     (Some [0; 0; 2]) tt Sample.world).1
  = Ret (2, [Some 0; Some 2])
  ∧ 2 = Z.of_nat (length [Some 0; Some 2]).
Proof.
  split; [reflexivity|].
  destruct (visit_variants_at_most_once Sample.func
              (Sample.process Sample.pkg true) (Some [0; 0; 2]) tt
              Sample.world) as (evs & _ & _ & _ & Hcount).
  apply Hcount. reflexivity.
Defined.

(** C2, on the code: a request for the indices 5, 3 and 5 of a package with
    three variants does not end in the variant error whose message lists 3
    and 5.  [visit_variants] builds nothing of it: its [raise] names
    [BuildError], which the module does not import, so Python raises
    [NameError].  The world is unchanged: no variant was processed. *)
Theorem visit_variants_unknown_index_NameError :
  visit_variants Sample.func (Sample.process Sample.pkg true)
    (Some [5; 3; 5]) tt Sample.world
  = (Raise (NameError "BuildError"), Sample.world)
  ∧ invalid_message (Sample.process Sample.pkg true) (Some [5; 3; 5])
    = "The package does not contain the variants: 3, 5"
  ∧ "BuildError" ∉ module_globals.
Proof.
  split; [reflexivity|]. split; [reflexivity|].
  apply (bool_decide_unpack _). by vm_compute.
Qed.

(** C3, on the code: a name that is not registered is not rejected by
    [create_build_process].  Its test compares the name with itself, so the
    name goes on to the plugin manager, whose own error comes back instead
    of the unknown-process error. *)
Theorem create_build_process_unregistered_passes :
  ("nope" ∉ get_build_process_types Sample.get_plugins)
  ∧ create_build_process Sample.get_plugins Sample.get_plugin_class
      "nope" "/w" tt None true false Sample.world
    = (Raise (Foreign "RezPluginError"),
       extend Sample.world [EvGetPluginClass "build_process" "nope"])
  ∧ (create_build_process Sample.get_plugins Sample.get_plugin_class
       "nope" "/w" tt None true false Sample.world
     ≠ (Raise (BuildProcessError "Unknown build process: 'nope'"),
        Sample.world)).
Proof.
  split; [|split].
  - apply (bool_decide_unpack _). by vm_compute.
  - reflexivity.
  - discriminate.
Qed.

(** * Further properties of the module *)

(** ** Strings *)

Lemma string_length_app (a b : string) :
  String.length (a +:+ b) = (String.length a + String.length b)%nat.
Proof.
  induction a as [|c a IH]; [done|].
  change (S (String.length (a +:+ b))
          = S (String.length a + String.length b)). by rewrite IH.
Qed.

Lemma string_app_cancel_r (a b t : string) : a +:+ t = b +:+ t → a = b.
Proof.
  revert b. induction a as [|c a IH]; intros [|d b] H.
  - done.
  - change (t = String d (b +:+ t)) in H.
    apply (f_equal String.length) in H.
    cbn [String.length] in H. rewrite string_length_app in H. lia.
  - change (String c (a +:+ t) = t) in H.
    apply (f_equal String.length) in H.
    cbn [String.length] in H. rewrite string_length_app in H. lia.
  - change (String c (a +:+ t) = String d (b +:+ t)) in H.
    injection H as -> H. f_equal. by apply IH.
Qed.

Lemma length_repeat_char (c : ascii) (n : nat) :
  String.length (Py.repeat_char c n) = n.
Proof. induction n as [|n IH]; [done|]. cbn. by rewrite IH. Qed.

Section Further.

Context {St Res Kw BuildSystem Hook DebugPrinter : Type}.

Implicit Types (w : @World St)
  (self : @BuildProcess BuildSystem Hook DebugPrinter).

(** ** The console helpers *)

(** X1: [_print_header] never raises, whatever the text is (a percent sign
    in it is not a conversion, for no arguments are passed on), and prints
    nothing when the process is not verbose.  When it is verbose, a header
    of level [n ≤ 1] is an empty line and the text between two rules of 80
    dashes; a header of a deeper level is an empty line, the text, and a
    rule exactly as long as the text. *)
Theorem _print_header_lines self (txt : string) (n : Z) w :
  ∃ lines,
    @_print_header St BuildSystem Hook DebugPrinter self txt n w
    = (Ret tt, extend w (EvPrint <$> lines))
    ∧ (verbose self = false → lines = [])
    ∧ (verbose self = true → n ≤ 1 →
       lines = [""; Py.repeat_char "-" 80; txt; Py.repeat_char "-" 80])
    ∧ (verbose self = true → 1 < n →
       ∃ rule, lines = [""; txt; rule]
               ∧ String.length rule = String.length txt
               ∧ rule = Py.repeat_char "-" (String.length txt)).
Proof.
  unfold _print_header, bind. rewrite _print_plain.
  destruct (verbose self) eqn:Hv; case_bool_decide as Hn.
  - exists [""; Py.repeat_char "-" 80; txt; Py.repeat_char "-" 80].
    rewrite !_print_plain, Hv, !extend_extend.
    split; [done|]. split; [done|]. split; [done|]. intros _ ?. lia.
  - exists [""; txt; Py.repeat_char "-" (String.length txt)].
    rewrite !_print_plain, Hv, !extend_extend.
    split; [done|]. split; [done|]. split; [intros _ ?; lia|].
    intros _ _. eexists. split; [done|].
    split; [apply length_repeat_char|done].
  - exists []. rewrite !_print_plain, Hv, !extend_extend.
    split; [done|]. split; [done|]. split; intros; done.
  - exists []. rewrite !_print_plain, Hv, !extend_extend.
    split; [done|]. split; [done|]. split; intros; done.
Qed.

(** ** The progress position *)

(** X2: for a variant of a package whose variants are as declared, the
    position [i/n] of [_n_of_m] is within bounds: [1 ≤ i ≤ n]. *)
Theorem _n_of_m_within self (variant : Variant) :
  declared_variants (package self) →
  variant ∈ iter_variants (package self) →
  ∃ i n,
    _n_of_m self variant = Py.str_int i +:+ "/" +:+ Py.str_int n
    ∧ 1 ≤ i ≤ n
    ∧ n = Z.max (num_variants (package self)) 1.
Proof.
  intros Hdecl Hin.
  exists (default 0 (index variant) + 1),
         (Z.max (num_variants (package self)) 1).
  split; [|split; [|done]].
  - unfold _n_of_m. destruct (index variant) as [i|]; [|done].
    cbn [default from_option id]. case_bool_decide; by subst.
  - assert (Hidx : index variant ∈ index <$> iter_variants (package self))
      by (by apply list_elem_of_fmap_2).
    rewrite Hdecl in Hidx. case_bool_decide as Hz.
    + apply list_elem_of_singleton in Hidx as ->. cbn [default from_option id]. lia.
    + apply list_elem_of_fmap in Hidx as (i & -> & Hi).
      apply elem_of_seqZ in Hi. cbn [default from_option id]. lia.
Qed.

(** X3: within a package whose variants are as declared, the position
    tells the variants apart: two variants with the same position string
    have the same index. *)
Theorem _n_of_m_distinct self (v1 v2 : Variant) :
  declared_variants (package self) →
  v1 ∈ iter_variants (package self) →
  v2 ∈ iter_variants (package self) →
  _n_of_m self v1 = _n_of_m self v2 →
  index v1 = index v2.
Proof.
  intros Hdecl H1 H2 Heq.
  assert (Hpos : ∀ v, _n_of_m self v
    = Py.str_int (default 0 (index v) + 1) +:+ "/" +:+
      Py.str_int (Z.max (num_variants (package self)) 1)).
  { intros v. unfold _n_of_m. destruct (index v) as [i|]; [|done].
    cbn [default from_option id]. case_bool_decide; by subst. }
  rewrite !Hpos in Heq. apply string_app_cancel_r in Heq.
  apply (inj pretty) in Heq.
  assert (Hidx : ∀ v, v ∈ iter_variants (package self) →
            index v = None ∧ num_variants (package self) ≤ 0
            ∨ (∃ i, index v = Some i) ∧ 0 < num_variants (package self)).
  { intros v Hv.
    assert (Hi : index v ∈ index <$> iter_variants (package self))
      by (by apply list_elem_of_fmap_2).
    rewrite Hdecl in Hi. case_bool_decide as Hz.
    - apply list_elem_of_singleton in Hi. left. split; [done|lia].
    - apply list_elem_of_fmap in Hi as (i & -> & _). right.
      split; [by exists i|lia]. }
  destruct (Hidx v1 H1) as [[E1 Hn1]|[[i1 E1] Hn1]],
           (Hidx v2 H2) as [[E2 Hn2]|[[i2 E2] Hn2]];
    rewrite E1, E2 in *; cbn [default from_option id] in Heq;
    first [ done | lia | f_equal; lia ].
Qed.

(** ** The traversal *)

Section MoreTraversal.

Variable func : Variant → Kw → St → Outcome Res * St.

(** X4: a request that names a negative index, or one that is not below
    the package's variant count, stops [visit_variants] before anything is
    printed and before the callback is invoked; a package that declares no
    variant accepts no request at all.  The exception is the [NameError] of
    the unbound [BuildError]. *)
Theorem visit_variants_out_of_range self (variants : option (list Z))
    (kwargs : Kw) w (i : Z) :
  i ∈ requested variants →
  i < 0 ∨ num_variants (package self) ≤ i →
  visit_variants func self variants kwargs w
  = (Raise (NameError "BuildError"), w).
Proof.
  intros Hin Hout. apply (visit_variants_invalid func self variants kwargs w i).
  - done.
  - unfold present_variants, Py.range. rewrite elem_of_seqZ. lia.
Qed.

Lemma visit_loop_request_ext self (vs vs' : list Z) (kwargs : Kw)
    (todo : list Variant) (results : list Res) (n : Z) w :
  vs ≠ [] → vs' ≠ [] → (∀ i, i ∈ vs ↔ i ∈ vs') →
  visit_loop func self (Some vs) kwargs todo results n w
  = visit_loop func self (Some vs') kwargs todo results n w.
Proof.
  intros Hvs Hvs' Hsame. revert results n w.
  induction todo as [|v todo IH]; intros results n w; [done|].
  cbn [visit_loop].
  assert (truthy (Some vs) = true) as -> by (by destruct vs).
  assert (truthy (Some vs') = true) as -> by (by destruct vs').
  assert (Py.opt_in (index v) (requested (Some vs))
          = Py.opt_in (index v) (requested (Some vs'))) as ->.
  { cbn [requested default from_option id]. unfold Py.opt_in.
    destruct (index v) as [i|]; [|done]. apply bool_decide_ext, Hsame. }
  destruct (true && negb _).
  - unfold bind. destruct (_print_header _ _ _ w) as [[[]|e] w1]; [|done].
    apply IH.
  - unfold bind. destruct (call func v kwargs w) as [[r|e] w1]; [|done].
    apply IH.
Qed.

(** X5: [visit_variants] treats the request as a set: two requests that
    are not empty and name the same indices, in whatever order and however
    often, give the same outcome and the same world. *)
Theorem visit_variants_request_as_set self (vs vs' : list Z) (kwargs : Kw)
    w :
  vs ≠ [] → vs' ≠ [] → (∀ i, i ∈ vs ↔ i ∈ vs') →
  visit_variants func self (Some vs) kwargs w
  = visit_variants func self (Some vs') kwargs w.
Proof.
  intros Hvs Hvs' Hsame. unfold visit_variants.
  assert (truthy (Some vs) = true) as -> by (by destruct vs).
  assert (truthy (Some vs') = true) as -> by (by destruct vs').
  assert (invalid_variants self (Some vs) = invalid_variants self (Some vs'))
    as ->.
  { unfold invalid_variants. cbn [requested default from_option id].
    apply set_eq. intros i.
    rewrite !elem_of_difference, !elem_of_list_to_set. by rewrite Hsame. }
  unfold bind.
  destruct (if negb _ then _ else _) as [[[]|e] w1]; [|done].
  by apply visit_loop_request_ext.
Qed.

(** The loop, when the callback raises on one of the variants it is given:
    the exception comes out, after the calls up to that variant. *)
Lemma visit_loop_raises self (variants : option (list Z)) (kwargs : Kw)
    (todo : list Variant) (results : list Res) (n : Z) w (e : Exn)
    (s' : St) :
  call_all func kwargs (filter (λ v, ¬ skips variants v) todo) (user w)
  = (Raise e, s') →
  ∃ evs before v after rs0 s0,
    visit_loop func self variants kwargs todo results n w
    = (Raise e, {| user := s'; trace := trace w ++ evs |})
    ∧ filter (λ v, ¬ skips variants v) todo = before ++ v :: after
    ∧ calls_of evs = before ++ [v]
    ∧ call_all func kwargs before (user w) = (Ret rs0, s0)
    ∧ func v kwargs s0 = (Raise e, s').
Proof.
  revert results n w. induction todo as [|v todo IH];
    intros results n w Hall; [done|].
  cbn [visit_loop]. fold (skips variants v).
  destruct (skips variants v) eqn:Hskip.
  - rewrite filter_cons_False in Hall
      by (rewrite Hskip; intros H; by apply H).
    rewrite filter_cons_False by (rewrite Hskip; intros H; by apply H).
    unfold bind. rewrite _print_header_top.
    destruct (IH results n (extend w (EvPrint <$>
      header_block self ("Skipping " +:+ _n_of_m self v +:+ "..."))) Hall)
      as (evs & before & v' & after & rs0 & s0 & Hrun & Hsel & Hcalls
          & Hbefore & Hraise).
    exists ((EvPrint <$>
      header_block self ("Skipping " +:+ _n_of_m self v +:+ "...")) ++ evs),
      before, v', after, rs0, s0.
    rewrite Hrun. unfold extend. cbn [user trace]. rewrite <- app_assoc.
    split; [done|]. split; [done|]. split; [|done].
    by rewrite calls_of_app, calls_of_prints.
  - rewrite filter_cons_True in Hall by (rewrite Hskip; intros []).
    rewrite filter_cons_True by (rewrite Hskip; intros []).
    cbn [call_all] in Hall. unfold bind, call.
    destruct (func v kwargs (user w)) as [[r|e1] s1] eqn:Hv.
    + destruct (call_all func kwargs _ s1) as [[rs1|e2] s2] eqn:E; [done|].
      injection Hall as -> ->.
      destruct (IH (results ++ [r]) (n + 1)
                  {| user := s1; trace := trace w ++ [EvCall v] |} E)
        as (evs & before & v' & after & rs0 & s0 & Hrun & Hsel & Hcalls
            & Hbefore & Hraise).
      exists (EvCall v :: evs), (v :: before), v', after, (r :: rs0), s0.
      rewrite Hrun. cbn [user trace]. rewrite <- app_assoc.
      split; [done|]. split; [by rewrite Hsel|].
      split; [cbn [calls_of]; by rewrite Hcalls|]. split; [|done].
      cbn [call_all]. rewrite Hv. cbn [user] in Hbefore. by rewrite Hbefore.
    + injection Hall as -> ->.
      exists [EvCall v], [], v,
        (filter (λ v, ¬ skips variants v) todo), [], (user w).
      split; [done|]. split; [done|]. split; [done|]. by split.
Qed.

(** X6: an exception of the callback comes out of [visit_variants] as it
    is, with the callback's state at that point.  The callback was invoked
    on the selected variants up to and including the one it raised on, and
    on none after it. *)
Theorem visit_variants_callback_raises self (variants : option (list Z))
    (kwargs : Kw) w (e : Exn) (s' : St) :
  let selected :=
    filter (λ v, ¬ skips variants v) (iter_variants (package self)) in
  (∀ i, i ∈ requested variants → i ∈ present_variants self) →
  call_all func kwargs selected (user w) = (Raise e, s') →
  ∃ evs before v after rs0 s0,
    visit_variants func self variants kwargs w
    = (Raise e, {| user := s'; trace := trace w ++ evs |})
    ∧ selected = before ++ v :: after
    ∧ calls_of evs = before ++ [v]
    ∧ call_all func kwargs before (user w) = (Ret rs0, s0)
    ∧ func v kwargs s0 = (Raise e, s').
Proof.
  intros selected Hvalid Hall. rewrite visit_variants_valid by done.
  by apply visit_loop_raises.
Qed.


(** The loop returns only if the callback returned on every variant the
    loop does not pass over. *)
Lemma visit_loop_ret_inv self (variants : option (list Z)) (kwargs : Kw)
    (todo : list Variant) (results : list Res) (n n' : Z) w w'
    (rs : list Res) :
  visit_loop func self variants kwargs todo results n w = (Ret (n', rs), w') →
  ∃ rs0,
    call_all func kwargs (filter (λ v, ¬ skips variants v) todo) (user w)
    = (Ret rs0, user w')
    ∧ n' = n + Z.of_nat (length rs0) ∧ rs = results ++ rs0.
Proof.
  intros Hret.
  destruct (call_all func kwargs (filter (λ v, ¬ skips variants v) todo)
              (user w)) as [[rs0|e] s'] eqn:E.
  - rewrite (visit_loop_returns func self variants kwargs todo results n w
               rs0 s' E) in Hret.
    injection Hret as <- <- <-. by exists rs0.
  - destruct (visit_loop_raises self variants kwargs todo results n w e s' E)
      as (evs & before & v & after & rs0 & s0 & Hrun & _).
    rewrite Hrun in Hret. discriminate.
Qed.

(** The variants a request selects, counted through their indices. *)
Lemma selected_length (vs js : list Z) (l : list Variant) :
  vs ≠ [] → index <$> l = Some <$> js →
  length (filter (λ v, ¬ skips (Some vs) v) l)
  = length (filter (λ j, j ∈ vs) js).
Proof.
  intros Hvs. revert js. induction l as [|v l IH]; intros [|j js] Hidx;
    try done.
  injection Hidx as Hv Hl. rewrite !filter_cons.
  rewrite skips_request by done. rewrite Hv. cbn [Py.opt_in].
  destruct (decide (j ∈ vs)) as [Hj|Hj].
  - rewrite bool_decide_eq_true_2 by done. cbn [negb].
    destruct (decide (¬ false)) as [_|Hn]; [|destruct Hn; by intros []].
    cbn [length]. f_equal. by apply IH.
  - rewrite bool_decide_eq_false_2 by done. cbn [negb].
    destruct (decide (¬ true)) as [Hn|_]; [by destruct Hn|]. by apply IH.
Qed.

(** X7: when [visit_variants] returns under a request that is not empty,
    on a package whose variants are as declared, the count it returns, and
    the number of results, is the number of distinct indices requested:
    repeating an index in the request does not process a variant twice. *)
Theorem visit_variants_count_distinct self (vs : list Z) (kwargs : Kw)
    w w' (n : Z) (rs : list Res) :
  declared_variants (package self) →
  vs ≠ [] →
  visit_variants func self (Some vs) kwargs w = (Ret (n, rs), w') →
  n = Z.of_nat (size (list_to_set vs : gset Z))
  ∧ length rs = size (list_to_set vs : gset Z).
Proof.
  intros Hdecl Hvs Hret.
  assert (Hvalid : ∀ i, i ∈ vs → i ∈ present_variants self).
  { intros i Hi.
    destruct (decide (i ∈ present_variants self)) as [|Hout]; [done|].
    rewrite (visit_variants_invalid func self (Some vs) kwargs w i Hi Hout)
      in Hret. discriminate. }
  rewrite visit_variants_valid in Hret by done.
  apply visit_loop_ret_inv in Hret as (rs0 & Hall & -> & ->).
  apply call_all_length in Hall. cbn [app]. rewrite Z.add_0_l, Hall.
  assert (Hpos : ¬ num_variants (package self) ≤ 0).
  { destruct vs as [|i vs']; [done|].
    assert (Hi : i ∈ present_variants self) by (apply Hvalid; left).
    unfold present_variants, Py.range in Hi. apply elem_of_seqZ in Hi. lia. }
  unfold declared_variants in Hdecl.
  rewrite bool_decide_eq_false_2 in Hdecl by done.
  rewrite (selected_length vs (Py.range (num_variants (package self))))
    by done.
  assert (Hsize : size (list_to_set vs : gset Z)
                  = length (filter (λ j, j ∈ vs)
                              (Py.range (num_variants (package self))))).
  { rewrite <- (size_list_to_set (C:=gset Z))
      by apply NoDup_filter, NoDup_seqZ.
    f_equal. apply set_eq. intros i.
    rewrite !elem_of_list_to_set, list_elem_of_filter.
    split; [intros Hi; split; [done|by apply Hvalid]|by intros [? _]]. }
  by rewrite Hsize.
Qed.

(** Two requests under which the loop passes over the same variants give
    the same loop. *)
Lemma visit_loop_skips_ext self (variants variants' : option (list Z))
    (kwargs : Kw) (todo : list Variant) (results : list Res) (n : Z) w :
  (∀ v, v ∈ todo → skips variants v = skips variants' v) →
  visit_loop func self variants kwargs todo results n w
  = visit_loop func self variants' kwargs todo results n w.
Proof.
  revert results n w. induction todo as [|v todo IH];
    intros results n w Hsame; [done|].
  cbn [visit_loop]. fold (skips variants v). fold (skips variants' v).
  rewrite (Hsame v) by left.
  assert (Hrest : ∀ v', v' ∈ todo → skips variants v' = skips variants' v')
    by (intros v' Hv'; apply Hsame; by right).
  destruct (skips variants' v).
  - unfold bind. destruct (_print_header _ _ _ w) as [[[]|e] w1]; [|done].
    by apply IH.
  - unfold bind. destruct (call func v kwargs w) as [[r|e] w1]; [|done].
    by apply IH.
Qed.

(** X8: on a package whose variants are as declared, a request that names
    every index of the package, and no other, is the same as no request:
    the same calls, the same outcome, the same world. *)
Theorem visit_variants_full_request self (vs : list Z) (kwargs : Kw) w :
  declared_variants (package self) →
  (∀ i, i ∈ vs ↔ 0 ≤ i < num_variants (package self)) →
  visit_variants func self (Some vs) kwargs w
  = visit_variants func self None kwargs w.
Proof.
  intros Hdecl Hfull.
  rewrite (visit_variants_valid func self None)
    by (intros i Hi; by apply elem_of_nil in Hi).
  rewrite visit_variants_valid.
  - apply visit_loop_skips_ext. intros v Hv.
    destruct vs as [|j vs']; [done|]. rewrite skips_request by done.
    assert (Hpos : ¬ num_variants (package self) ≤ 0).
    { assert (Hj : 0 ≤ j < num_variants (package self))
        by (apply Hfull; left). lia. }
    assert (Hidx : index v ∈ index <$> iter_variants (package self))
      by (by apply list_elem_of_fmap_2).
    rewrite Hdecl, bool_decide_eq_false_2 in Hidx by done.
    apply list_elem_of_fmap in Hidx as (i & -> & Hi).
    unfold Py.range in Hi. apply elem_of_seqZ in Hi.
    cbn [Py.opt_in]. rewrite bool_decide_eq_true_2; [done|].
    apply Hfull. lia.
  - intros i Hi. unfold present_variants, Py.range.
    apply elem_of_seqZ. cbn [requested default from_option id] in Hi.
    apply Hfull in Hi. lia.
Qed.

(** The loop of a process that is not verbose does nothing but call the
    callback. *)
Lemma visit_loop_quiet self (variants : option (list Z)) (kwargs : Kw)
    (todo : list Variant) (results : list Res) (n : Z) w :
  verbose self = false →
  ∃ evs,
    trace (visit_loop func self variants kwargs todo results n w).2
    = trace w ++ evs
    ∧ evs = EvCall <$> calls_of evs.
Proof.
  intros Hq. revert results n w.
  induction todo as [|v todo IH]; intros results n w.
  - exists []. cbn [visit_loop ret snd]. by rewrite app_nil_r.
  - cbn [visit_loop].
    destruct (truthy variants &&
              negb (Py.opt_in (index v) (requested variants))).
    + unfold bind. rewrite _print_header_top. unfold header_block.
      rewrite Hq. cbn [fmap list_fmap]. rewrite extend_nil. apply IH.
    + unfold bind, call.
      destruct (func v kwargs (user w)) as [[r|e] s1].
      * destruct (IH (results ++ [r]) (n + 1)
          {| user := s1; trace := trace w ++ [EvCall v] |})
          as (evs & Htr & Hev).
        exists (EvCall v :: evs). rewrite Htr. cbn [trace].
        rewrite <- app_assoc. split; [done|].
        cbn [calls_of fmap list_fmap]. by rewrite <- Hev.
      * by exists [EvCall v].
Qed.

(** X9: a process that is not verbose prints nothing during a traversal,
    whatever the request, the callback and the outcome are: all that
    [visit_variants] does to the world is to invoke the callback. *)
Theorem visit_variants_quiet self (variants : option (list Z))
    (kwargs : Kw) w :
  verbose self = false →
  ∃ evs,
    trace (visit_variants func self variants kwargs w).2 = trace w ++ evs
    ∧ evs = EvCall <$> calls_of evs
    ∧ printed_of evs = [].
Proof.
  intros Hq.
  assert (Hgo : ∃ evs,
    trace (visit_variants func self variants kwargs w).2 = trace w ++ evs
    ∧ evs = EvCall <$> calls_of evs).
  { unfold visit_variants, bind.
    destruct (truthy variants);
      [|by apply visit_loop_quiet].
    destruct (bool_decide (invalid_variants self variants = ∅));
      [by apply visit_loop_quiet|].
    cbn [negb]. unfold raise_global. exists [].
    destruct (bool_decide _); cbn [snd]; by rewrite app_nil_r. }
  destruct Hgo as (evs & Htr & Hev). exists evs.
  split; [done|]. split; [done|].
  rewrite Hev. apply printed_of_calls.
Qed.

End MoreTraversal.


(** ** The build context *)

Section MoreBuildContext.

Variable solve : list Requirement → list string → Outcome ResolverStatus.t.
Variable report : Context → Outcome unit.
Variable write : Context → string → Outcome unit.

(** The world after [create_build_context]: the actions up to the point
    where a collaborator raised, or all of them. *)
Lemma create_build_context_world self (variant : Variant)
    (build_type : BuildType.t) (build_path : string) w :
  (create_build_context solve report write self variant build_type
     build_path w).2
  = extend w
      match solve (get_requires variant true true)
                  (search_paths self build_type) with
      | Raise _ => build_context_request self variant build_type
      | Ret st =>
          match (if verbose self
                 then report (build_context self variant build_type st)
                 else Ret tt) with
          | Raise _ => build_context_prelude self variant build_type st
          | Ret _ =>
              build_context_events self variant build_type build_path st
          end
      end.
Proof.
  rewrite create_build_context_run. cbv zeta.
  destruct (solve _ _) as [st|e]; [|done].
  destruct (if verbose self then _ else _) as [[]|e]; [|done].
  by destruct (write _ _) as [[]|e].
Qed.

(** X10: what [create_build_context] does, in order, and where it stops.
    A verbose process first prints the progress line, the requirements
    joined by single spaces (whatever characters they hold: they are an
    argument of the format, not part of it); this is all the function
    itself prints.  Then the resolver is called; if it raises, nothing
    follows.  A verbose process then lets the context print its report;
    if that raises, nothing follows.  Then the context is saved, and
    nothing follows the save.  The callback's state is not touched. *)
Theorem create_build_context_actions self (variant : Variant)
    (build_type : BuildType.t) (build_path : string) w :
  let request := get_requires variant true true in
  let paths := search_paths self build_type in
  let rxt := Py.os_path_join build_path "build.rxt" in
  let r := create_build_context solve report write self variant build_type
             build_path w in
  let progress :=
    if verbose self
    then [EvPrint ("Resolving build environment: " +:+ Py.join " " request)]
    else [] in
  ∃ evs,
    trace r.2 = trace w ++ evs
    ∧ user r.2 = user w
    ∧ printed_of evs = printed_of progress
    ∧ (∀ e, solve request paths = Raise e →
         evs = progress ++ [EvResolve request paths true])
    ∧ (∀ st, solve request paths = Ret st →
         let c := build_context self variant build_type st in
         (verbose self = false →
            evs = [EvResolve request paths true; EvSave rxt c])
         ∧ (verbose self = true → ∀ e, report c = Raise e →
            evs = progress ++ [EvResolve request paths true; EvPrintInfo c])
         ∧ (verbose self = true → report c = Ret tt →
            evs = progress ++ [EvResolve request paths true; EvPrintInfo c;
                               EvSave rxt c])).
Proof.
  intros request paths rxt r progress. subst r.
  rewrite create_build_context_world. fold request paths.
  eexists. split; [reflexivity|]. split; [reflexivity|].
  unfold build_context_events, build_context_prelude, build_context_request.
  fold request paths rxt progress.
  destruct (solve request paths) as [st|e0].
  - set (c := build_context self variant build_type st).
    subst progress. destruct (verbose self).
    + destruct (report c) as [[]|e1] eqn:Hrep.
      * split; [done|]. split; [done|]. intros st' [= <-]. fold c.
        split; [done|]. split; [intros _ e He; congruence|].
        intros _ _. by rewrite <- !app_assoc.
      * split; [done|]. split; [done|]. intros st' [= <-]. fold c.
        split; [done|]. split; [|intros _ He; congruence].
        intros _ e _. by rewrite <- !app_assoc.
    + split; [done|]. split; [done|]. intros st' [= <-]. fold c.
      split; [done|]. split; done.
  - split; [subst progress; by destruct (verbose self)|].
    split; [done|]. by intros st.
Qed.

End MoreBuildContext.

(** ** The constructor *)

Section MoreConstructor.

Variable get_developer_package : string → Outcome Package.
Variable create_release_hooks : list string → string → list Hook.
Variable debug_printer : string → DebugPrinter.

Lemma init_run (working_dir : string) (build_system : BuildSystem)
    (vcs : option ReleaseVCS) (ensure_latest verbose : bool) w :
  (∀ v, vcs = Some v → path v = working_dir) →
  __init__ get_developer_package create_release_hooks debug_printer
    working_dir build_system vcs ensure_latest verbose w
  = match get_developer_package working_dir with
    | Ret p =>
        let hook_names := default [] (release_hooks (config p)) in
        (Ret {| verbose := verbose; working_dir := working_dir;
                build_system := build_system; vcs := vcs;
                ensure_latest := ensure_latest;
                debug_print := debug_printer "package_release";
                package := p;
                hooks := create_release_hooks hook_names working_dir;
                build_path :=
                  Py.os_path_join working_dir (build_directory (config p)) |},
         extend w [EvLoadPackage working_dir;
                   EvCreateHooks hook_names working_dir])
    | Raise e => (Raise e, extend w [EvLoadPackage working_dir])
    end.
Proof.
  intros Hv. unfold __init__.
  assert (match vcs with
          | Some v => bool_decide (path v ≠ working_dir)
          | None => false
          end = false) as ->.
  { destruct vcs as [v|]; [|done]. apply bool_decide_eq_false_2.
    intros Hne. by apply Hne, Hv. }
  unfold bind, emit.
  destruct (get_developer_package working_dir) as [p|e]; [|done].
  unfold ret. rewrite extend_extend. cbn [app].
  by destruct (release_hooks (config p)) as [[|n ns]|].
Qed.

(** X11: the constructor with no VCS, or with one rooted at the working
    directory.  It loads the developer package of the working directory,
    once; an error of the loader comes out as it is, before any release
    hook is created.  Otherwise it creates the hooks the package's
    configuration names (none when the setting is absent or empty) and
    returns a process that keeps the arguments as given, with the build
    path being the build directory joined to the working directory. *)
Theorem init_matched_vcs (dir : string) (system : BuildSystem)
    (control : option ReleaseVCS) (latest chatty : bool) w :
  (∀ v, control = Some v → path v = dir) →
  let r := __init__ get_developer_package create_release_hooks debug_printer
             dir system control latest chatty w in
  (∀ e, get_developer_package dir = Raise e →
     r = (Raise e, extend w [EvLoadPackage dir]))
  ∧ (∀ p, get_developer_package dir = Ret p →
     ∃ self,
       r = (Ret self,
            extend w [EvLoadPackage dir;
                      EvCreateHooks (default [] (release_hooks (config p)))
                                    dir])
       ∧ package self = p
       ∧ hooks self
         = create_release_hooks (default [] (release_hooks (config p))) dir
       ∧ build_path self
         = Py.os_path_join dir (build_directory (config p))
       ∧ (working_dir self, vcs self, ensure_latest self, verbose self,
          build_system self)
         = (dir, control, latest, chatty, system)).
Proof.
  intros Hv r. subst r. rewrite init_run by done. split.
  - by intros e ->.
  - intros p ->. by eexists.
Qed.

End MoreConstructor.


(** ** The factory *)

Section MoreFactory.

Variable get_plugin_class :
  string → string → Outcome (@Cls St BuildSystem Hook DebugPrinter).

(** X12: [create_build_process] hands every name, registered or not, to
    the plugin manager, once, and the registered types play no part in
    the outcome: an error of the plugin manager comes out as it is, and a
    class it returns is called with the arguments as given. *)
Theorem create_build_process_delegates (get_plugins get_plugins' :
      string → list string) (process_type dir : string)
    (system : BuildSystem) (control : option ReleaseVCS)
    (latest chatty : bool) w :
  let r := create_build_process get_plugins get_plugin_class process_type
             dir system control latest chatty w in
  let asked := EvGetPluginClass "build_process" process_type in
  r = create_build_process get_plugins' get_plugin_class process_type
        dir system control latest chatty w
  ∧ (∀ e, get_plugin_class "build_process" process_type = Raise e →
       r = (Raise e, extend w [asked]))
  ∧ (∀ cls, get_plugin_class "build_process" process_type = Ret cls →
       r = cls dir system control latest chatty (extend w [asked])).
Proof.
  intros r asked. subst r asked.
  rewrite !create_build_process_check_passes.
  split; [done|]. split.
  - by intros e ->.
  - by intros cls ->.
Qed.

Variable get_plugins : string → list string.
Variable get_developer_package : string → Outcome Package.
Variable create_release_hooks : list string → string → list Hook.
Variable debug_printer : string → DebugPrinter.

(** X13: the factory on a type whose class is constructed by
    [BuildProcess.__init__].  The class is looked up before anything
    else.  A VCS rooted elsewhere than the working directory then ends in
    the mismatch error, with no package loaded; with no VCS, or one
    rooted at the working directory, and a package that loads, the
    process of that package comes back, after the lookup, the load and the
    creation of the hooks, in this order. *)
Theorem create_build_process_base_class (process_type dir : string)
    (system : BuildSystem) (control : option ReleaseVCS)
    (latest chatty : bool) w :
  get_plugin_class "build_process" process_type
  = Ret (__init__ get_developer_package create_release_hooks debug_printer) →
  let r := create_build_process get_plugins get_plugin_class process_type
             dir system control latest chatty w in
  let asked := EvGetPluginClass "build_process" process_type in
  (∀ v, control = Some v → path v ≠ dir →
     r = (Raise (BuildProcessError
            "Build process was instantiated with a mismatched VCS instance"),
          extend w [asked]))
  ∧ ((∀ v, control = Some v → path v = dir) →
     ∀ p, get_developer_package dir = Ret p →
     ∃ self,
       r = (Ret self,
            extend w [asked; EvLoadPackage dir;
                      EvCreateHooks (default [] (release_hooks (config p)))
                                    dir])
       ∧ package self = p ∧ working_dir self = dir
       ∧ vcs self = control ∧ verbose self = chatty).
Proof.
  intros Hcls r asked. subst r asked.
  rewrite create_build_process_check_passes, Hcls. split.
  - intros v -> Hne. unfold __init__.
    rewrite bool_decide_eq_true_2 by done. reflexivity.
  - intros Hv p Hp. rewrite init_run by done. rewrite Hp.
    cbv beta iota zeta. eexists. rewrite extend_extend. by cbn [app].
Qed.

End MoreFactory.

(** ** The install path *)

Lemma string_app_assoc (a b c : string) : (a +:+ b) +:+ c = a +:+ b +:+ c.
Proof.
  induction a as [|x a IH]; [done|].
  change (String x ((a +:+ b) +:+ c) = String x (a +:+ b +:+ c)).
  by rewrite IH.
Qed.

Lemma string_app_nonempty_r (a b : string) : b ≠ "" → a +:+ b ≠ "".
Proof. intros Hb. by destruct a. Qed.

(** Joining onto a path with a prefix: the prefix stays in front. *)
Lemma os_path_join_prefix (r x v : string) :
  x ≠ "" → Py.startswith_slash v = false →
  Py.os_path_join (r +:+ x) v = r +:+ Py.os_path_join x v.
Proof.
  intros Hx Hv. unfold Py.os_path_join. rewrite Hv.
  rewrite endswith_slash_app by done.
  rewrite (bool_decide_eq_false_2 (r +:+ x = ""))
    by (by apply string_app_nonempty_r).
  rewrite (bool_decide_eq_false_2 (x = "")) by done. cbn [orb].
  destruct (Py.endswith_slash x); by rewrite string_app_assoc.
Qed.

(** The install path under a plain root, for a relative name and
    version: the root, followed by a part that depends on the package
    only. *)
Lemma get_package_install_path_under self (root : string) :
  root ≠ "" → Py.endswith_slash root = false →
  Py.startswith_slash (name (package self)) = false →
  (∀ v, version (package self) = Some v → Py.startswith_slash v = false) →
  get_package_install_path self root
  = root +:+
    match version (package self) with
    | Some v => Py.os_path_join ("/" +:+ name (package self)) v
    | None => "/" +:+ name (package self)
    end.
Proof.
  intros Hr Hre Hn Hv. unfold get_package_install_path.
  rewrite (os_path_join_plain root) by done.
  destruct (version (package self)) as [v|]; [|done].
  apply os_path_join_prefix; [done|by apply Hv].
Qed.

(** X14: two install roots never share a payload directory: for a package
    with a relative name and version, and roots that are not empty and do
    not end with a slash, equal install paths come from equal roots. *)
Theorem get_package_install_path_root_inj self (root root' : string) :
  root ≠ "" → Py.endswith_slash root = false →
  root' ≠ "" → Py.endswith_slash root' = false →
  Py.startswith_slash (name (package self)) = false →
  (∀ v, version (package self) = Some v → Py.startswith_slash v = false) →
  get_package_install_path self root = get_package_install_path self root' →
  root = root'.
Proof.
  intros Hr Hre Hr' Hre' Hn Hv Heq.
  rewrite !get_package_install_path_under in Heq by done.
  by apply string_app_cancel_r in Heq.
Qed.

(** X15: the edges of the install path, as [os.path.join] has them.  An
    absolute package name makes the root irrelevant, and an absolute
    version is the whole path.  Under an empty root, or one that ends with
    a slash, a relative name follows the root directly, with no slash
    added. *)
Theorem get_package_install_path_edges self (root : string) :
  (Py.startswith_slash (name (package self)) = true →
   ∀ root', get_package_install_path self root'
            = get_package_install_path self root)
  ∧ (∀ v, version (package self) = Some v →
       Py.startswith_slash v = true →
       get_package_install_path self root = v)
  ∧ (root = "" ∨ Py.endswith_slash root = true →
     Py.startswith_slash (name (package self)) = false →
     name (package self) ≠ "" →
     Py.endswith_slash (name (package self)) = false →
     (∀ v, version (package self) = Some v → Py.startswith_slash v = false) →
     get_package_install_path self root
     = root +:+
       match version (package self) with
       | Some v => name (package self) +:+ "/" +:+ v
       | None => name (package self)
       end).
Proof.
  split; [|split].
  - intros Hn root'. unfold get_package_install_path, Py.os_path_join.
    by rewrite Hn.
  - intros v Hv Hs. unfold get_package_install_path. rewrite Hv.
    unfold Py.os_path_join at 1. by rewrite Hs.
  - intros Hroot Hn Hne Hnn Hv. unfold get_package_install_path.
    assert (Hjoin : Py.os_path_join root (name (package self))
                    = root +:+ name (package self)).
    { unfold Py.os_path_join. rewrite Hn.
      destruct Hroot as [-> | ->]; [done|].
      by rewrite orb_true_r. }
    rewrite Hjoin. destruct (version (package self)) as [v|]; [|done].
    rewrite os_path_join_prefix; [|done|by apply Hv]. f_equal.
    apply os_path_join_plain; [by apply Hv|done|done].
Qed.

End Further.

(** * The further properties at work on the sample package *)

Lemma _print_header_lines_witness :
  ∃ lines,
    _print_header (Sample.process Sample.pkg true) "Building" 2 Sample.world
    = (Ret tt, extend Sample.world (EvPrint <$> lines))
    ∧ lines = [""; "Building"; "--------"].
Proof.
  destruct (_print_header_lines (Sample.process Sample.pkg true) "Building"
              2 Sample.world) as (lines & Hrun & _ & _ & Hdeep).
  exists lines. split; [exact Hrun|].
  destruct Hdeep as (rule & -> & _ & ->); [reflexivity|lia|reflexivity].
Defined.

Lemma create_build_context_actions_witness :
  ∃ evs,
    trace (create_build_context Sample.solve Sample.report Sample.write
             (Sample.process Sample.pkg false) (Sample.variant (Some 0))
             BuildType.local "/absent" Sample.world).2
    = trace Sample.world ++ evs
    ∧ evs = [EvResolve ["python-2.7"; "cmake"; "gcc-4.8"]
               ["/home/packages"; "/packages"] true;
             EvSave "/absent/build.rxt"
               (build_context (Sample.process Sample.pkg false)
                  (Sample.variant (Some 0)) BuildType.local
                  ResolverStatus.solved)].
Proof.
  destruct (create_build_context_actions Sample.solve Sample.report
              Sample.write (Sample.process Sample.pkg false)
              (Sample.variant (Some 0)) BuildType.local "/absent"
              Sample.world) as (evs & Htr & _ & _ & _ & Hret).
  exists evs. split; [exact Htr|].
  exact (proj1 (Hret ResolverStatus.solved eq_refl) eq_refl).
Defined.

Lemma _n_of_m_within_witness :
  ∃ i n,
    _n_of_m (Sample.process Sample.pkg true) (Sample.variant (Some 2))
    = Py.str_int i +:+ "/" +:+ Py.str_int n
    ∧ 1 ≤ i ≤ n
    ∧ n = Z.max (num_variants (package (Sample.process Sample.pkg true))) 1.
Proof.
  apply (_n_of_m_within (Sample.process Sample.pkg true)
           (Sample.variant (Some 2))).
  - reflexivity.
  - repeat constructor.
Defined.

Lemma _n_of_m_distinct_witness :
  index (Sample.variant (Some 1)) = index (Sample.variant (Some 1)).
Proof.
  apply (_n_of_m_distinct (Sample.process Sample.pkg true)
           (Sample.variant (Some 1)) (Sample.variant (Some 1))).
  - reflexivity.
  - repeat constructor.
  - repeat constructor.
  - reflexivity.
Defined.

Lemma visit_variants_out_of_range_witness :
  visit_variants Sample.func (Sample.process Sample.pkg true)
    (Some [0; 7]) tt Sample.world
  = (Raise (NameError "BuildError"), Sample.world).
Proof.
  apply (visit_variants_out_of_range Sample.func
           (Sample.process Sample.pkg true) (Some [0; 7]) tt Sample.world 7).
  - repeat constructor.
  - right. vm_compute. discriminate.
Defined.

Lemma visit_variants_request_as_set_witness :
  visit_variants Sample.func (Sample.process Sample.pkg true)
    (Some [2; 0; 2]) tt Sample.world
  = visit_variants Sample.func (Sample.process Sample.pkg true)
      (Some [0; 2]) tt Sample.world.
Proof.
  apply (visit_variants_request_as_set Sample.func
           (Sample.process Sample.pkg true) [2; 0; 2] [0; 2] tt
           Sample.world).
  - discriminate.
  - discriminate.
  - intros i. rewrite !elem_of_cons, !elem_of_nil. tauto.
Defined.

Lemma visit_variants_callback_raises_witness :
  ∃ evs before v after rs0 s0,
    visit_variants Sample.picky (Sample.process Sample.pkg true) None tt
      Sample.world
    = (Raise (Foreign "CalledProcessError"),
       {| user := 2%nat; trace := trace Sample.world ++ evs |})
    ∧ filter (λ v, ¬ skips None v)
        (iter_variants (package (Sample.process Sample.pkg true)))
      = before ++ v :: after
    ∧ calls_of evs = before ++ [v]
    ∧ call_all Sample.picky tt before (user Sample.world) = (Ret rs0, s0)
    ∧ Sample.picky v tt s0 = (Raise (Foreign "CalledProcessError"), 2%nat).
Proof.
  apply (visit_variants_callback_raises Sample.picky
           (Sample.process Sample.pkg true) None tt Sample.world
           (Foreign "CalledProcessError") 2%nat).
  - intros i Hi. by apply elem_of_nil in Hi.
  - reflexivity.
Defined.

Lemma visit_variants_count_distinct_witness :
  2 = Z.of_nat (size (list_to_set [0; 0; 2] : gset Z))
  ∧ length [Some 0; Some 2] = size (list_to_set [0; 0; 2] : gset Z).
Proof.
  apply (visit_variants_count_distinct Sample.func
           (Sample.process Sample.pkg false) [0; 0; 2] tt Sample.world
           {| user := 2%nat;
              trace := [EvCall (Sample.variant (Some 0));
                        EvCall (Sample.variant (Some 2))] |}
           2 [Some 0; Some 2]).
  - reflexivity.
  - discriminate.
  - reflexivity.
Defined.

Lemma visit_variants_full_request_witness :
  visit_variants Sample.func (Sample.process Sample.pkg true)
    (Some [2; 1; 0]) tt Sample.world
  = visit_variants Sample.func (Sample.process Sample.pkg true) None tt
      Sample.world.
Proof.
  apply (visit_variants_full_request Sample.func
           (Sample.process Sample.pkg true) [2; 1; 0] tt Sample.world).
  - reflexivity.
  - intros i. rewrite !elem_of_cons, !elem_of_nil.
    change (num_variants (package (Sample.process Sample.pkg true)))
      with 3. lia.
Defined.

Lemma visit_variants_quiet_witness :
  ∃ evs,
    trace (visit_variants Sample.func (Sample.process Sample.pkg false)
             (Some [1]) tt Sample.world).2
    = trace Sample.world ++ evs
    ∧ evs = EvCall <$> calls_of evs
    ∧ printed_of evs = [].
Proof.
  apply (visit_variants_quiet Sample.func (Sample.process Sample.pkg false)
           (Some [1]) tt Sample.world).
  reflexivity.
Defined.

Lemma init_matched_vcs_witness :
  ∃ self,
    __init__ Sample.get_developer_package (λ _ _, @nil unit) (λ _, tt)
      "/w" tt (Some {| path := "/w" |}) true false Sample.world
    = (Ret self,
       extend Sample.world [EvLoadPackage "/w"; EvCreateHooks [] "/w"])
    ∧ build_path self = "/w/build".
Proof.
  assert (Hv : ∀ v, Some {| path := "/w" |} = Some v → path v = "/w")
    by (intros v [= <-]; reflexivity).
  destruct (proj2 (init_matched_vcs Sample.get_developer_package
                     (λ _ _, @nil unit) (λ _, tt) "/w" tt
                     (Some {| path := "/w" |}) true false Sample.world Hv)
              Sample.pkg eq_refl)
    as (self & Hrun & _ & _ & Hpath & _).
  exists self. split; [exact Hrun|]. rewrite Hpath. reflexivity.
Defined.

Lemma create_build_process_delegates_witness :
  create_build_process Sample.get_plugins Sample.get_plugin_class
    "nope" "/w" tt None true false Sample.world
  = (Raise (Foreign "RezPluginError"),
     extend Sample.world [EvGetPluginClass "build_process" "nope"]).
Proof.
  apply (proj1 (proj2 (create_build_process_delegates
           Sample.get_plugin_class Sample.get_plugins (λ _, [])
           "nope" "/w" tt None true false Sample.world))
           (Foreign "RezPluginError")).
  reflexivity.
Defined.

Lemma create_build_process_base_class_witness :
  create_build_process Sample.get_plugins Sample.get_plugin_class
    "local" "/w" tt (Some {| path := "/elsewhere" |}) true false Sample.world
  = (Raise (BuildProcessError
       "Build process was instantiated with a mismatched VCS instance"),
     extend Sample.world [EvGetPluginClass "build_process" "local"]).
Proof.
  apply (proj1 (create_build_process_base_class Sample.get_plugin_class
           Sample.get_plugins Sample.get_developer_package
           (λ _ _, @nil unit) (λ _, tt) "local" "/w" tt
           (Some {| path := "/elsewhere" |}) true false Sample.world
           eq_refl) {| path := "/elsewhere" |}).
  - reflexivity.
  - discriminate.
Defined.

Lemma get_package_install_path_root_inj_witness : "/r" = "/r".
Proof.
  apply (get_package_install_path_root_inj
           (Sample.process Sample.pkg false) "/r" "/r").
  - discriminate.
  - reflexivity.
  - discriminate.
  - reflexivity.
  - reflexivity.
  - intros v [= <-]. reflexivity.
  - reflexivity.
Defined.

Lemma get_package_install_path_edges_witness :
  get_package_install_path (Sample.process Sample.pkg false) "/r/"
  = "/r/P/1.2.3".
Proof.
  refine (proj2 (proj2 (get_package_install_path_edges
            (Sample.process Sample.pkg false) "/r/")) _ _ _ _ _).
  - right. reflexivity.
  - reflexivity.
  - discriminate.
  - reflexivity.
  - intros v [= <-]. reflexivity.
Defined.
